(** * S3 download orchestration and the sidecar environment client

    A shallow embedding of [src/s3/commands/downloadFileAs.ts] and
    [src/shared/clients/mdeEnvironmentClient.ts].

    - One download ([downloadS3File], [downloadFile]) is a reactive object: the
      wiring done on lines 66-90 of the source builds a [Transfer], the
      events of the stream and of the cancellation tokens are dispatched to
      it, and the promise the function returns is read off its final state.
    - The folder manager ([S3DownloadFilesManager.downloadAll],
      [downloadFolderCommand]) is written in a small monad of asynchronous
      tasks ([Async]) and run by a cooperative scheduler ([Loop]) in which
      every [await] suspends the running task and the order in which
      suspended tasks resume is free.
    - The sidecar client issues its requests through the same monad.
    - The command that downloads one file from the explorer
      ([downloadFileAsCommand]) and the activation code that follows it in
      the same source ([handleRestart], the handler of [aws.mde.create]) call
      the host one call after the other: they are written in a monad that
      records the calls made ([Command]). *)

From Stdlib Require Import QArith Sorted.
From stdpp Require Import base strings list gmap.

Set Default Proof Using "Type".

(* ===================================================================== *)
(** * Part I: definitions *)
(* ===================================================================== *)

(** ** Data model *)

Definition Buffer := list Byte.byte.

(** [Buffer.alloc(size)]: a zero-filled buffer. *)
Definition Buffer_alloc (size : nat) : Buffer := replicate size Byte.x00.

Module Bucket.
Record t := { name : string; region : string }.
End Bucket.

(** [S3File] with its bucket, as [downloadFile] receives it: the fields the
    two functions read. *)
Record S3File := {
  bucket : Bucket.t;
  key : string;
  name : string;
  sizeBytes : nat;
}.

(** [vscode.Uri]; on the POSIX hosts modelled here [fsPath] is [path]. *)
Module Uri.
Record t := { scheme : string; path : string }.

Definition file (p : string) : t := {| scheme := "file"; path := p |}.
Definition fsPath (u : t) : string := path u.
End Uri.

(** Modelled from the spec: [CancellationError] and the cancellation token of
    [Timeout] ([src/shared/utilities/timeoutUtils.ts]) are not among the
    sources. Sections 4.1 and 5: a cancellation is attributed to an agent, the
    user or a timeout, and the error carries that agent. *)
Inductive CancellationAgent := user | by_timeout.

(** The [details] an error is chained with in [downloadFile]. *)
Module ErrorDetails.
Record t := {
  bucket : Bucket.t;
  path : string;
  destination : option string;
}.
End ErrorDetails.

(** Modelled from the spec: the error classes ([src/shared/errors.ts],
    [timeoutUtils.ts]) are not among the sources. Section 7: a cancellation
    error, transport and file-system faults, and the download error that wraps
    an underlying cause with the container, the key and the destination path. *)
Inductive Error :=
| CancellationError (agent : CancellationAgent)
| ServiceError (code : string)
| SystemError (code : string) (at_path : string)
| ToolkitError (message : string) (cause : Error) (details : ErrorDetails.t).

(** [ToolkitError.chain(err, message, { details })]: the new error keeps
    [err] as its cause. *)
Definition ToolkitError_chain (err : Error) (message : string) (details : ErrorDetails.t) : Error :=
  ToolkitError message err details.

(** A settled promise. *)
Inductive Outcome (A : Type) :=
| Fulfilled (value : A)
| Rejected (reason : Error).
Arguments Fulfilled {A} value.
Arguments Rejected {A} reason.

(** [promise.catch(handler)]. *)
Definition promise_catch {A} (p : Outcome A) (handler : Error -> Outcome A) : Outcome A :=
  match p with
  | Fulfilled v => Fulfilled v
  | Rejected err => handler err
  end.

Inductive ProgressLocation := SourceControl | WindowLocation | Notification.

Inductive Window := Window_vscode | Window_other (id : nat).

Record Timeout := { timeout_millis : nat }.

Record S3Client := { regionCode : string }.

Definition DefaultS3Client (region : string) : S3Client := {| regionCode := region |}.

Record DownloadFileOptions := {
  progressLocation : option ProgressLocation;
  saveLocation : option Uri.t;
  window : option Window;
  timeout : option Timeout;
  client : option S3Client;
}.

(** ** Progress reporter *)

(** Modelled from the spec: [progressReporter] of [src/s3/progressReporter.ts]
    is not among the sources. Section 4.3: the reporter keeps a running total
    of the bytes received and, on each delta, reports the percentage of the
    hint that total amounts to, capped at 100 once the total reaches or
    exceeds the hint. *)
Record Reporter := { totalBytes : nat; loadedBytes : nat }.

Definition progressReporter (total : nat) : Reporter :=
  {| totalBytes := total; loadedBytes := 0 |}.

Definition percentage (r : Reporter) : Q :=
  if (totalBytes r <=? loadedBytes r)%nat then 100%Q
  else (Z.of_nat (100 * loadedBytes r) # Pos.of_nat (totalBytes r))%Q.

(** One call [reporter(delta)]: the new running state and the update sent. *)
Definition report (r : Reporter) (delta : nat) : Reporter * Q :=
  let r' := {| totalBytes := totalBytes r; loadedBytes := loadedBytes r + delta |} in
  (r', percentage r').

(** The updates sent for a sequence of deltas. *)
Fixpoint reports (r : Reporter) (deltas : list nat) : list Q :=
  match deltas with
  | [] => []
  | delta :: rest => let (r', pct) := report r delta in pct :: reports r' rest
  end.

(** Bytes received after a sequence of deltas. *)
Definition received (r : Reporter) (deltas : list nat) : nat :=
  loadedBytes r + sum_list deltas.

(** ** Stream sinks *)

(** Modelled from the spec: [streamToBuffer] and [streamToFile] of
    [src/shared/utilities/streamUtilities.ts] are not among the sources.
    Section 4.1: the buffer sink accumulates the whole stream in memory in a
    buffer pre-sized from the hint; the hint is no hard cap, so a write past
    the end grows the buffer and the result is cut to the bytes written. The
    file sink writes the stream to the path. Both expose a completion signal:
    fulfilled when the stream ends, rejected with the stream's error. *)
Record BufferWriter := { storage : Buffer; offset : nat }.

Definition BufferWriter_new (sizeHint : nat) : BufferWriter :=
  {| storage := Buffer_alloc sizeHint; offset := 0 |}.

Definition BufferWriter_write (w : BufferWriter) (chunk : Buffer) : BufferWriter :=
  let needed := offset w + length chunk in
  let grown :=
    if (needed <=? length (storage w))%nat then storage w
    else storage w ++ Buffer_alloc (needed - length (storage w)) in
  {| storage := take (offset w) grown ++ chunk ++ drop needed grown;
     offset := needed |}.

Definition BufferWriter_finish (w : BufferWriter) : Buffer :=
  take (offset w) (storage w).

Inductive Sink :=
| ToBuffer (w : BufferWriter)
| ToFile (destination : Uri.t) (written : Buffer).

Definition streamToBuffer (sizeHint : nat) : Sink := ToBuffer (BufferWriter_new sizeHint).
Definition streamToFile (destination : Uri.t) : Sink := ToFile destination [].

Definition Sink_write (s : Sink) (chunk : Buffer) : Sink :=
  match s with
  | ToBuffer w => ToBuffer (BufferWriter_write w chunk)
  | ToFile dest written => ToFile dest (written ++ chunk)
  end.

(** What the sink's promise is fulfilled with: the buffer, or nothing. *)
Definition Sink_value (s : Sink) : option Buffer :=
  match s with
  | ToBuffer w => Some (BufferWriter_finish w)
  | ToFile _ _ => None
  end.

(** ** One download as a reactive object *)

Inductive StreamState := flowing | ended | destroyed (err : Error).

(** What can happen while a download is in flight. *)
Inductive StreamEvent :=
| data (chunk : Buffer)                          (* the source emits a chunk *)
| end_of_stream                                  (* the source is exhausted *)
| error (err : Error)                            (* the transport fails *)
| cancellationRequested (agent : CancellationAgent) (* [options.timeout.token] fires *)
| progressCancelled.                             (* the token of [withProgress] fires *)

(** The stream together with what lines 66-90 attach to it. *)
Record Transfer := {
  state : StreamState;
  sink : Sink;
  onTimeoutCancel : bool;       (* line 70 registered its listener *)
  onProgressCancel : bool;      (* line 82 registered its listener and the
                                   notification is cancellable *)
  reporter : option Reporter;   (* line 83: the 'data' listener [report] *)
  reported : list Q;
}.

Definition set_state (t : Transfer) (s : StreamState) : Transfer :=
  {| state := s; sink := sink t; onTimeoutCancel := onTimeoutCancel t;
     onProgressCancel := onProgressCancel t; reporter := reporter t;
     reported := reported t |}.

(** [downloadStream.destroy(err)]: a stream is destroyed once. *)
Definition destroy (t : Transfer) (err : Error) : Transfer :=
  match state t with
  | flowing => set_state t (destroyed err)
  | _ => t
  end.

Definition on_data (t : Transfer) (chunk : Buffer) : Transfer :=
  let progress :=
    match reporter t with
    | Some r => let (r', pct) := report r (length chunk) in (Some r', reported t ++ [pct])
    | None => (None, reported t)
    end in
  {| state := state t; sink := Sink_write (sink t) chunk;
     onTimeoutCancel := onTimeoutCancel t; onProgressCancel := onProgressCancel t;
     reporter := fst progress; reported := snd progress |}.

Definition dispatch (t : Transfer) (ev : StreamEvent) : Transfer :=
  match state t with
  | flowing =>
      match ev with
      | data chunk => on_data t chunk
      | end_of_stream => set_state t ended
      | error err => set_state t (destroyed err)
      | cancellationRequested agent =>
          if onTimeoutCancel t then destroy t (CancellationError agent) else t
      | progressCancelled =>
          if onProgressCancel t then destroy t (CancellationError user) else t
      end
  | _ => t
  end.

(** The promise [result]: pending while the stream flows. *)
Definition settled (t : Transfer) : option (Outcome (option Buffer)) :=
  match state t with
  | flowing => None
  | ended => Some (Fulfilled (Sink_value (sink t)))
  | destroyed err => Some (Rejected err)
  end.

(** Lines 66-90 of [downloadS3File]: the sink is chosen by [saveLocation],
    the timeout's listener is registered when a timeout is given, and the
    progress notification (with its reporter and its own cancellation
    listener) is set up when a progress location is given; the notification
    is cancellable exactly when a timeout is given. *)
Definition wire (file : S3File) (options : option DownloadFileOptions) : Transfer :=
  let result :=
    match options ≫= saveLocation with
    | Some location => streamToFile location
    | None => streamToBuffer (sizeBytes file)
    end in
  let cancellable := bool_decide (is_Some (options ≫= timeout)) in
  let progress := bool_decide (is_Some (options ≫= progressLocation)) in
  {| state := flowing;
     sink := result;
     onTimeoutCancel := cancellable;
     onProgressCancel := progress && cancellable;
     reporter := if progress then Some (progressReporter (sizeBytes file)) else None;
     reported := [] |}.

(** A stream handed out by the object store. *)
Record Readable := { stream_id : nat }.

(** The object store and everything else outside the extension. *)
Record Store := {
  downloadFileStream : S3Client -> string -> string -> Outcome Readable;
  timeline : Readable -> list StreamEvent;
}.

Definition downloadS3File (store : Store) (c : S3Client) (file : S3File)
    (options : option DownloadFileOptions) : option (Outcome (option Buffer)) :=
  match downloadFileStream store c (Bucket.name (bucket file)) (key file) with
  | Rejected err => Some (Rejected err)
  | Fulfilled downloadStream =>
      settled (foldl dispatch (wire file options) (timeline store downloadStream))
  end.

Definition download_error_message (file : S3File) : string :=
  "Failed to download file " +:+ name file.

Definition download_error_details (file : S3File) (options : option DownloadFileOptions)
    : ErrorDetails.t :=
  {| ErrorDetails.bucket := bucket file;
     ErrorDetails.path := key file;
     ErrorDetails.destination := Uri.path <$> (options ≫= saveLocation) |}.

Definition downloadFile (store : Store) (file : S3File)
    (options : option DownloadFileOptions) : option (Outcome (option Buffer)) :=
  let c := default (DefaultS3Client (Bucket.region (bucket file))) (options ≫= client) in
  (fun p => promise_catch p (fun err =>
     Rejected (ToolkitError_chain err (download_error_message file)
                 (download_error_details file options))))
  <$> downloadS3File store c file options.

(** ** The folder manager's world *)

Module S3DownloadFilesManager.
(** The fields of the class; [new] is its constructor. *)
Record t := {
  client : S3Client;
  fileList : list S3File;
  failedToDownload : list S3File;
  totalDownloaded : nat;
  folderName : option string;
}.

Definition new (c : S3Client) (files : list S3File) (folder : option string) : t :=
  {| client := c; fileList := files; failedToDownload := [];
     totalDownloaded := 0; folderName := folder |}.

Definition push_failed (file : S3File) (m : t) : t :=
  {| client := client m; fileList := fileList m;
     failedToDownload := failedToDownload m ++ [file];
     totalDownloaded := totalDownloaded m; folderName := folderName m |}.

End S3DownloadFilesManager.

#[global] Instance S3DownloadFilesManager_inhabited : Inhabited S3DownloadFilesManager.t :=
  populate (S3DownloadFilesManager.new (DefaultS3Client "") [] None).

(** What the tasks share: the manager objects (a reference is an index into
    the heap), the directories that exist, and the default download path. *)
Record World := {
  managers : list S3DownloadFilesManager.t;
  dirs : gset string;
  defaultDownloadPath : string;
}.

Record OpenDialogOptions := {
  defaultUri : Uri.t;
  openLabel : string;
  canSelectFolders : bool;
  canSelectFiles : bool;
  canSelectMany : bool;
}.

Record ListFilesRequest := { bucketName : string; folderPath : string }.

(** A file of a listing: an [S3File] that has no bucket yet. *)
Module File.
Record t := { key : string; name : string; sizeBytes : nat }.
End File.

Record ListFilesResponse := { files : list File.t }.

Module Folder.
Record t := { name : string; path : string }.
End Folder.

Module S3FolderNode.
Record t := { bucket : Bucket.t; folder : Folder.t; s3 : S3Client }.
End S3FolderNode.

(** ** The sidecar's wire types (mdeEnvironmentClient.ts, lines 45-68) *)

Inductive Status := PENDING | STABLE | CHANGED.

Module GetStatusResponse.
Record t := {
  actionId : option string;
  message : option string;
  status : option Status;
}.
End GetStatusResponse.

Module CreateDevfileRequest.
Record t := { path : option string }.
End CreateDevfileRequest.

Module CreateDevfileResponse.
(** Location of the created devfile. *)
Record t := { location : option string }.
End CreateDevfileResponse.

Module StartDevfileRequest.
Record t := {
  location : option string;
  recreateHomeVolumes : option bool;
}.
End StartDevfileRequest.

Inductive Method := GET | POST.

(** The object given as [json:] is what [got] serialises as the body. *)
Inductive JsonBody :=
| json_StartDevfileRequest (request : StartDevfileRequest.t)
| json_CreateDevfileRequest (request : CreateDevfileRequest.t).

Record GotOptions := { json : option JsonBody; responseType : string }.

Record Response (B : Type) := { body : B }.
Arguments body {B} _.

(** An untyped response body. *)
Inductive unknown := Unknown (raw : string).

(** ** Asynchronous tasks *)

(** Calls that return at once: the file system, [path.join], the manager
    objects. [fs_mkdirSync] answers with the error it threw, if any. *)
Inductive Sync : Type -> Type :=
| path_join (a b : string) : Sync string
| fs_existsSync (p : string) : Sync bool
| fs_mkdirSync (p : string) : Sync (option Error)
| getDefaultDownloadPath : Sync string
| manager_new (m : S3DownloadFilesManager.t) : Sync nat
| manager_read (this : nat) : Sync S3DownloadFilesManager.t
| failedToDownload_push (this : nat) (file : S3File) : Sync unit.

(** Promises made outside the task that awaits them. *)
Inductive Awaitable : Type -> Type :=
| showOpenDialog (w : Window) (options : OpenDialogOptions) : Awaitable (option (list Uri.t))
| listFiles (c : S3Client) (request : ListFilesRequest) : Awaitable ListFilesResponse
| downloadFile_call (file : S3File) (options : DownloadFileOptions) : Awaitable (option Buffer)
| got (B : Type) (method : Method) (url : string) (options : GotOptions) : Awaitable (Response B).

(** The body of an [async] function. [Await] suspends it; [Launch t k] calls
    the async function [t] and goes on with [k] without keeping the promise
    [t] returned. *)
Inductive Async (R : Type) : Type :=
| Ret (r : R)
| Throw (err : Error)
| Do {A : Type} (op : Sync A) (k : A -> Async R)
| Await {A : Type} (p : Awaitable A) (k : Outcome A -> Async R)
| Launch (t : Async unit) (k : Async R).
Arguments Ret {R} r.
Arguments Throw {R} err.
Arguments Do {R A} op k.
Arguments Await {R A} p k.
Arguments Launch {R} t k.

Fixpoint Async_bind {A B : Type} (m : Async A) (f : A -> Async B) : Async B :=
  match m with
  | Ret a => f a
  | Throw err => Throw err
  | Do op k => Do op (fun x => Async_bind (k x) f)
  | Await p k => Await p (fun x => Async_bind (k x) f)
  | Launch t k => Launch t (Async_bind k f)
  end.

#[export] Instance Async_ret : MRet Async := @Ret.
#[export] Instance Async_mbind : MBind Async := fun A B f m => Async_bind m f.

(** [try { body } catch (error) { handler }]: what a launched task throws
    stays with its own promise. *)
Fixpoint try_catch {A : Type} (body : Async A) (handler : Error -> Async A) : Async A :=
  match body with
  | Ret a => Ret a
  | Throw err => handler err
  | Do op k => Do op (fun x => try_catch (k x) handler)
  | Await p k => Await p (fun x => try_catch (k x) handler)
  | Launch t k => Launch t (try_catch k handler)
  end.

(** [await p]: the value [p] is fulfilled with, or its rejection thrown. *)
Definition await {A : Type} (p : Awaitable A) : Async A :=
  Await p (fun settled_ =>
    match settled_ with
    | Fulfilled v => Ret v
    | Rejected err => Throw err
    end).

Definition perform {A : Type} (op : Sync A) : Async A := Do op Ret.

Definition mkdirSync (dir : string) : Async unit :=
  thrown ← perform (fs_mkdirSync dir);
  match thrown with
  | Some err => Throw err
  | None => Ret tt
  end.

(** [list.forEach(async x => ...)]: each call of the callback runs up to its
    first [await] and its promise is dropped. *)
Fixpoint forEach {A : Type} (l : list A) (callback : A -> Async unit) : Async unit :=
  match l with
  | [] => Ret tt
  | x :: rest => Launch (callback x) (forEach rest callback)
  end.

(** A string used as a condition. *)
Definition truthy (s : string) : bool := negb (String.eqb s "").

(** ** downloadFileAs.ts, lines 169-243 *)

Definition promptForSaveFolderLocation (w : Window) : Async (option Uri.t) :=
  saveLocation ← perform getDefaultDownloadPath;
  folderLocation ← await (showOpenDialog w
    {| defaultUri := Uri.file saveLocation;
       openLabel := "Download Folder Here";
       canSelectFolders := true;
       canSelectFiles := false;
       canSelectMany := false |});
  match folderLocation with
  | None | Some [] => Ret None
  | Some (first :: _) => Ret (Some first)
  end.

(** The options the callback of line 199 hands to [downloadFile]. *)
Definition folder_download_options (c : S3Client) (destination : string) : DownloadFileOptions :=
  {| progressLocation := Some Notification;
     saveLocation := Some (Uri.file destination);
     window := Some Window_vscode;
     timeout := None;
     client := Some c |}.

(** The callback of lines 199-210. *)
Definition download_one (this : nat) (savePath : string) (file : S3File) : Async unit :=
  try_catch
    (destination ← perform (path_join savePath (name file));
     self ← perform (manager_read this);
     _ ← await (downloadFile_call file
                  (folder_download_options (S3DownloadFilesManager.client self) destination));
     Ret tt)
    (fun _ => perform (failedToDownload_push this file)).

Definition downloadAll (this : nat) : Async unit :=
  saveLocation ← promptForSaveFolderLocation Window_vscode;
  match saveLocation with
  | None => Throw (CancellationError user)
  | Some saveLocation =>
      (* create a folder with the folder name (e.g. 'Download Folder') *)
      savePath ←
        (let savePath := Uri.fsPath saveLocation in
         self ← perform (manager_read this);
         match S3DownloadFilesManager.folderName self with
         | Some folderName =>
             if truthy folderName then
               dir ← perform (path_join savePath folderName);
               present ← perform (fs_existsSync dir);
               if negb present then
                 _ ← mkdirSync dir;
                 Ret dir
               else Ret savePath
             else Ret savePath
         | None => Ret savePath
         end);
      self ← perform (manager_read this);
      forEach (S3DownloadFilesManager.fileList self) (download_one this savePath)
  end.

Definition downloadFolderCommand (folder : S3FolderNode.t) : Async unit :=
  listing ← await (listFiles (S3FolderNode.s3 folder)
    {| bucketName := Bucket.name (S3FolderNode.bucket folder);
       folderPath := Folder.path (S3FolderNode.folder folder) |});
  let files_ := (fun file =>
    {| bucket := S3FolderNode.bucket folder; key := File.key file;
       name := File.name file; sizeBytes := File.sizeBytes file |}) <$> files listing in
  downloadManager ← perform (manager_new
    (S3DownloadFilesManager.new (S3FolderNode.s3 folder) files_
       (Some (Folder.name (S3FolderNode.folder folder)))));
  Launch (downloadAll downloadManager) (Ret tt).

(** ** The scheduler *)

(** Everything outside the extension: the object store, [path.join], what
    the user answers to the folder dialog (a selection, or nothing when the
    dialog is dismissed), the listing, the faults of [fs.mkdirSync] (it
    throws when the directory cannot be created), and the sidecar. *)
Record Env := {
  store : Store;
  join : string -> string -> string;
  dialog : Window -> OpenDialogOptions -> option (list Uri.t);
  listing_of : S3Client -> ListFilesRequest -> Outcome ListFilesResponse;
  mkdir_fault : string -> option Error;
  sidecar : forall B : Type, Method -> string -> GotOptions -> option (Outcome (Response B));
}.

Definition with_dirs (w : World) (d : gset string) : World :=
  {| managers := managers w; dirs := d; defaultDownloadPath := defaultDownloadPath w |}.

Definition with_managers (w : World) (ms : list S3DownloadFilesManager.t) : World :=
  {| managers := ms; dirs := dirs w; defaultDownloadPath := defaultDownloadPath w |}.

Definition perform_sync (env : Env) {A : Type} (op : Sync A) (w : World) : A * World :=
  match op in Sync T return T * World with
  | path_join a b => (join env a b, w)
  | fs_existsSync p => (bool_decide (p ∈ dirs w), w)
  | fs_mkdirSync p =>
      if bool_decide (p ∈ dirs w) then (Some (SystemError "EEXIST" p), w)
      else match mkdir_fault env p with
           | Some err => (Some err, w)
           | None => (None, with_dirs w ({[p]} ∪ dirs w))
           end
  | getDefaultDownloadPath => (defaultDownloadPath w, w)
  | manager_new m => (length (managers w), with_managers w (managers w ++ [m]))
  | manager_read this => (managers w !!! this, w)
  | failedToDownload_push this file =>
      (tt, with_managers w (alter (S3DownloadFilesManager.push_failed file) this (managers w)))
  end.

(** When (and with what) the outside settles a promise; [None]: never. *)
Definition answer_of (env : Env) {A : Type} (p : Awaitable A) : option (Outcome A) :=
  match p in Awaitable T return option (Outcome T) with
  | showOpenDialog w options => Some (Fulfilled (dialog env w options))
  | listFiles c request => Some (listing_of env c request)
  | downloadFile_call file options => downloadFile (store env) file (Some options)
  | got B method url options => sidecar env B method url options
  end.

(** A task parked at an [await]. *)
Record Suspended := {
  task : nat;
  answer : Type;
  awaiting : Awaitable answer;
  resume : Outcome answer -> Async unit;
}.

(** The event loop: the shared world, the parked tasks in the order they
    were parked, and the promise of every task that has returned or thrown. *)
Record Loop := {
  world : World;
  suspended : list Suspended;
  promises : gmap nat (Outcome unit);
  next_task : nat;
}.

Definition set_world (l : Loop) (w : World) : Loop :=
  {| world := w; suspended := suspended l; promises := promises l; next_task := next_task l |}.

Definition settle (pid : nat) (o : Outcome unit) (l : Loop) : Loop :=
  {| world := world l; suspended := suspended l;
     promises := <[pid := o]> (promises l); next_task := next_task l |}.

Definition park (s : Suspended) (l : Loop) : Loop :=
  {| world := world l; suspended := suspended l ++ [s];
     promises := promises l; next_task := next_task l |}.

Definition fresh_task (l : Loop) : Loop :=
  {| world := world l; suspended := suspended l;
     promises := promises l; next_task := S (next_task l) |}.

Definition unpark (i : nat) (l : Loop) : Loop :=
  {| world := world l; suspended := delete i (suspended l);
     promises := promises l; next_task := next_task l |}.

(** Run task [pid] until it returns, throws or reaches an [await]. *)
Fixpoint run (env : Env) (pid : nat) (t : Async unit) (l : Loop) : Loop :=
  match t with
  | Ret _ => settle pid (Fulfilled tt) l
  | Throw err => settle pid (Rejected err) l
  | Do op k =>
      let (a, w) := perform_sync env op (world l) in
      run env pid (k a) (set_world l w)
  | Await p k => park {| task := pid; awaiting := p; resume := k |} l
  | Launch child k =>
      run env pid k (run env (next_task l) child (fresh_task l))
  end.

(** One turn of the loop: the promise awaited by the [i]-th parked task
    settles and that task runs on. *)
Definition step (env : Env) (l : Loop) (i : nat) : Loop :=
  match suspended l !! i with
  | None => l
  | Some s =>
      match answer_of env (awaiting s) with
      | None => l
      | Some o => run env (task s) (resume s o) (unpark i l)
      end
  end.

(** A schedule names, turn by turn, the parked task that resumes. *)
Definition turns (env : Env) (l : Loop) (schedule : list nat) : Loop :=
  foldl (step env) l schedule.

(** Call the async function [t]; its promise is task 0. *)
Definition call (env : Env) (w : World) (t : Async unit) : Loop :=
  run env 0 t {| world := w; suspended := []; promises := ∅; next_task := 1 |}.

Definition promise (l : Loop) (pid : nat) : option (Outcome unit) := promises l !! pid.

(** The per-object downloads that have been started and not yet settled. *)
Definition in_flight (l : Loop) : list (S3File * DownloadFileOptions) :=
  omap (fun s =>
    match awaiting s with
    | downloadFile_call file options => Some (file, options)
    | _ => None
    end) (suspended l).

(** ** mdeEnvironmentClient.ts *)

Definition ENVIRONMENT_ARN_KEY : string := "__ENVIRONMENT_ARN".
Definition MDE_ENVIRONMENT_ENDPOINT : string := "http://127.0.0.1:1339".

Record DefaultMdeEnvironmentClient := { endpoint : string }.

(** The constructor: the endpoint defaults to [MDE_ENVIRONMENT_ENDPOINT]. *)
Definition DefaultMdeEnvironmentClient_new (endpoint_ : option string)
    : DefaultMdeEnvironmentClient :=
  {| endpoint := default MDE_ENVIRONMENT_ENDPOINT endpoint_ |}.

(** The getter [arn]; [process_env] is [process.env]. *)
Definition arn (c : DefaultMdeEnvironmentClient) (process_env : gmap string string)
    : option string :=
  process_env !! ENVIRONMENT_ARN_KEY.

Definition json_options (request : option JsonBody) : GotOptions :=
  {| json := request; responseType := "json" |}.

Definition startDevfile (c : DefaultMdeEnvironmentClient) (request : StartDevfileRequest.t)
    : Async unit :=
  _ ← await (got unknown POST (endpoint c +:+ "/start")
               (json_options (Some (json_StartDevfileRequest request))));
  Ret tt.

Definition createDevfile (c : DefaultMdeEnvironmentClient) (request : CreateDevfileRequest.t)
    : Async CreateDevfileResponse.t :=
  response ← await (got CreateDevfileResponse.t POST (endpoint c +:+ "/devfile/create")
                      (json_options (Some (json_CreateDevfileRequest request))));
  Ret (body response).

Definition getStatus (c : DefaultMdeEnvironmentClient) : Async GetStatusResponse.t :=
  response ← await (got GetStatusResponse.t GET (endpoint c +:+ "/status") (json_options None));
  Ret (body response).

Definition getEnvArn (process_env : gmap string string) : option string :=
  match process_env !! "__ENVIRONMENT_ARN" with
  | Some value => if truthy value then Some value else None
  | None => None
  end.

(** ** What a folder download looks like from outside *)

(** The dialog [promptForSaveFolderLocation] opens in world [w]. *)
Definition folder_dialog (w : World) : OpenDialogOptions :=
  {| defaultUri := Uri.file (defaultDownloadPath w);
     openLabel := "Download Folder Here";
     canSelectFolders := true;
     canSelectFiles := false;
     canSelectMany := false |}.

(** The destination the user chose, if any. *)
Definition chosen_folder (env : Env) (w : World) : option Uri.t :=
  match dialog env Window_vscode (folder_dialog w) with
  | Some (first :: _) => Some first
  | _ => None
  end.

(** The directory [downloadAll] has to create: the one named after the
    folder under the destination, unless the folder has no name or the
    directory is already there. *)
Definition missing_subdirectory (env : Env) (w : World) (this : nat) (saveLocation : Uri.t)
    : option string :=
  match S3DownloadFilesManager.folderName (managers w !!! this) with
  | Some folder =>
      let dir := join env (Uri.fsPath saveLocation) folder in
      if truthy folder && negb (bool_decide (dir ∈ dirs w)) then Some dir else None
  | None => None
  end.

(** The callback of line 199 once its download has settled. *)
Definition after_download (this : nat) (file : S3File) (o : Outcome (option Buffer))
    : Async unit :=
  try_catch
    (_ ← match o with Fulfilled v => Ret v | Rejected err => Throw err end; Ret tt)
    (fun _ => perform (failedToDownload_push this file)).

(** The callback parked at [await downloadFile(file, options)]. *)
Definition parked_download (this : nat) (d : nat * S3File * DownloadFileOptions) : Suspended :=
  {| task := d.1.1;
     awaiting := downloadFile_call d.1.2 d.2;
     resume := after_download this d.1.2 |}.

(** The downloads [forEach] launches for [files], as tasks [first], [first + 1], ... *)
Fixpoint launched (env : Env) (first : nat) (c : S3Client) (savePath : string)
    (files_ : list S3File) : list (nat * S3File * DownloadFileOptions) :=
  match files_ with
  | [] => []
  | file :: rest =>
      (first, file, folder_download_options c (join env savePath (name file)))
        :: launched env (S first) c savePath rest
  end.

(** Whether the outside world rejects this download. *)
Definition download_fails (env : Env) (d : S3File * DownloadFileOptions) : bool :=
  match downloadFile (store env) d.1 (Some d.2) with
  | Some (Rejected _) => true
  | _ => false
  end.

(** The manager behind reference [this]. *)
Definition manager (l : Loop) (this : nat) : S3DownloadFilesManager.t :=
  managers (world l) !!! this.

(** What is asked of the outside for a parked download. *)
Definition job (d : nat * S3File * DownloadFileOptions) : S3File * DownloadFileOptions :=
  (d.1.2, d.2).

(** The loop right after [forEach] has launched the downloads of the
    manager's files into [savePath], the caller being task [pid]. *)
Definition batch (env : Env) (pid this : nat) (w : World) (ps : gmap nat (Outcome unit))
    (n : nat) (savePath : string) : Loop :=
  {| world := w;
     suspended := parked_download this <$>
       launched env n (S3DownloadFilesManager.client (managers w !!! this)) savePath
         (S3DownloadFilesManager.fileList (managers w !!! this));
     promises := <[pid := Fulfilled tt]> ps;
     next_task := n + length (S3DownloadFilesManager.fileList (managers w !!! this)) |}.

(** The loop when the caller, task [pid], has thrown [err] with nothing parked. *)
Definition thrown (pid : nat) (w : World) (ps : gmap nat (Outcome unit)) (n : nat)
    (err : Error) : Loop :=
  {| world := w; suspended := []; promises := <[pid := Rejected err]> ps; next_task := n |}.

(** The objects recorded as failed so far together with those in flight
    whose download is going to fail. *)
Definition failures (env : Env) (this : nat) (l : Loop) : list S3File :=
  S3DownloadFilesManager.failedToDownload (manager l this)
  ++ (fst <$> filter (fun d => download_fails env d) (in_flight l)).

(** Whether a parked task is waiting for the folder dialog. *)
Definition awaits_dialog (s : Suspended) : bool :=
  match awaiting s with
  | showOpenDialog _ _ => true
  | _ => false
  end.

(** Where the in-flight downloads are being saved. *)
Definition destinations (l : Loop) : list (option string) :=
  (fun d => Uri.path <$> saveLocation d.2) <$> in_flight l.

(** ** Concrete data for the closed examples *)

Definition posix_join (a b : string) : string := a +:+ "/" +:+ b.

Definition reports_bucket : Bucket.t :=
  {| Bucket.name := "reports"; Bucket.region := "us-west-2" |}.

(** Three objects; the size hint of [file_A] is too small and that of
    [file_C] too large for the three bytes the store streams. *)
Definition file_A : S3File :=
  {| bucket := reports_bucket; key := "2024/a.txt"; name := "a.txt"; sizeBytes := 2 |}.
Definition file_B : S3File :=
  {| bucket := reports_bucket; key := "2024/b.txt"; name := "b.txt"; sizeBytes := 3 |}.
Definition file_C : S3File :=
  {| bucket := reports_bucket; key := "2024/c.txt"; name := "c.txt"; sizeBytes := 10 |}.

Definition abc_chunks : list Buffer := [[Byte.x61; Byte.x62]; [Byte.x63]].

(** A store in which [2024/b.txt] cannot be read and every other object
    streams "ab", "c" and ends. *)
Definition abc_store : Store :=
  {| downloadFileStream := fun _ _ k =>
       if String.eqb k "2024/b.txt" then Rejected (ServiceError "NoSuchKey")
       else Fulfilled {| stream_id := String.length k |};
     timeline := fun _ => (data <$> abc_chunks) ++ [end_of_stream] |}.

(** The same store when the timeout fires after the first chunk. *)
Definition interrupted_store : Store :=
  {| downloadFileStream := downloadFileStream abc_store;
     timeline := fun _ =>
       [data [Byte.x61; Byte.x62]; cancellationRequested by_timeout;
        data [Byte.x63]; end_of_stream] |}.

Definition timed_options : DownloadFileOptions :=
  {| progressLocation := Some Notification; saveLocation := None; window := None;
     timeout := Some {| timeout_millis := 5000 |}; client := None |}.

Definition downloads_dir : string := "/home/user/Downloads".

Definition listing_2024 : ListFilesResponse :=
  {| files := [ {| File.key := "2024/a.txt"; File.name := "a.txt"; File.sizeBytes := 2 |} ] |}.

(** The user picks [/home/user/Downloads]; nothing else goes wrong. *)
Definition friendly_env : Env :=
  {| store := abc_store;
     join := posix_join;
     dialog := fun _ _ => Some [Uri.file downloads_dir];
     listing_of := fun _ _ => Fulfilled listing_2024;
     mkdir_fault := fun _ => None;
     sidecar := fun _ _ _ _ => None |}.

(** The user picks a directory in which no directory can be created. *)
Definition read_only_env : Env :=
  {| store := abc_store;
     join := posix_join;
     dialog := fun _ _ => Some [Uri.file "/usr"];
     listing_of := fun _ _ => Fulfilled listing_2024;
     mkdir_fault := fun p => Some (SystemError "EACCES" p);
     sidecar := fun _ _ _ _ => None |}.

(** The user dismisses the folder dialog. *)
Definition dismissing_env : Env :=
  {| store := abc_store;
     join := posix_join;
     dialog := fun _ _ => None;
     listing_of := fun _ _ => Fulfilled listing_2024;
     mkdir_fault := fun _ => None;
     sidecar := fun _ _ _ _ => None |}.

Definition abc_manager : S3DownloadFilesManager.t :=
  S3DownloadFilesManager.new (DefaultS3Client "us-west-2") [file_A; file_B; file_C] (Some "2024").

(** A world with the manager of the three objects at reference 0. *)
Definition fresh_world : World :=
  {| managers := [abc_manager]; dirs := {[downloads_dir]}; defaultDownloadPath := "/home/user" |}.

(** The same world after an earlier download of the folder. *)
Definition second_time_world : World :=
  {| managers := [abc_manager];
     dirs := {[downloads_dir; "/home/user/Downloads/2024"]};
     defaultDownloadPath := "/home/user" |}.

Definition empty_world : World :=
  {| managers := []; dirs := {[downloads_dir]}; defaultDownloadPath := "/home/user" |}.

Definition folder_2024 : S3FolderNode.t :=
  {| S3FolderNode.bucket := reports_bucket;
     S3FolderNode.folder := {| Folder.name := "2024"; Folder.path := "2024/" |};
     S3FolderNode.s3 := DefaultS3Client "us-west-2" |}.

(** The orders in which three parked downloads can settle, each turn naming
    a position among those still parked. *)
Definition settle_orders : list (list nat) :=
  [[0; 0; 0]; [0; 1; 0]; [1; 0; 0]; [1; 1; 0]; [2; 0; 0]; [2; 1; 0]].

(** ** Predicates used in the statements *)

(** The writer holds exactly [acc]: that many bytes written, all of them in
    place at the front of the storage. *)
Definition holds (w : BufferWriter) (acc : Buffer) : Prop :=
  offset w = length acc /\ take (offset w) (storage w) = acc.

(** A cancellation the wiring of [options] listens to: the token of
    [options.timeout] firing for [agent], or the notification's own token
    firing (attributed to the user) when a progress location was given. *)
Definition cancels (options : option DownloadFileOptions) (ev : StreamEvent)
    (agent : CancellationAgent) : Prop :=
  ev = cancellationRequested agent
  \/ (ev = progressCancelled /\ agent = user /\ is_Some (options ≫= progressLocation)).

(* ===================================================================== *)
(** * Part I, continued: the rest of the two files *)
(* ===================================================================== *)

(** ** More about one download *)




(** Whether the sink collects a buffer. *)
Definition collects_buffer (s : Sink) : bool :=
  match s with
  | ToBuffer _ => true
  | ToFile _ _ => false
  end.



(** ** More about the folder manager *)


(** The files of a listing as [downloadFolderCommand] hands them to the
    manager: each with the folder's bucket. *)
Definition listed_files (folder : S3FolderNode.t) (listing : ListFilesResponse) : list S3File :=
  (fun file =>
     {| bucket := S3FolderNode.bucket folder; key := File.key file;
        name := File.name file; sizeBytes := File.sizeBytes file |}) <$> files listing.

(** The request [downloadFolderCommand] sends for [folder]. *)
Definition listing_request (folder : S3FolderNode.t) : ListFilesRequest :=
  {| bucketName := Bucket.name (S3FolderNode.bucket folder);
     folderPath := Folder.path (S3FolderNode.folder folder) |}.

(** The objects recorded as failed by the manager behind [this]. *)
Definition recorded (l : Loop) (this : nat) : list S3File :=
  S3DownloadFilesManager.failedToDownload (manager l this).

(** The options [downloadAll] gives the download of [file] into [savePath]. *)
Definition batch_job (env : Env) (c : S3Client) (savePath : string) (file : S3File)
    : S3File * DownloadFileOptions :=
  (file, folder_download_options c (join env savePath (name file))).

(** The bucket cannot be listed. *)
Definition unlisted_env : Env :=
  {| store := abc_store;
     join := posix_join;
     dialog := fun _ _ => Some [Uri.file downloads_dir];
     listing_of := fun _ _ => Rejected (ServiceError "AccessDenied");
     mkdir_fault := fun _ => None;
     sidecar := fun _ _ _ _ => None |}.

(** A world whose manager has nothing to download. *)
Definition idle_world : World :=
  {| managers := [S3DownloadFilesManager.new (DefaultS3Client "us-west-2") [] (Some "2024")];
     dirs := {[downloads_dir]};
     defaultDownloadPath := "/home/user" |}.

(** ** Commands that talk to the host *)

(** A function that calls the host and awaits its promises one after the
    other: the calls it has made, in order, and how its own promise settles
    ([None]: it is still waiting for a promise that never settles). *)
Record Command (C A : Type) := {
  calls : list C;
  outcome : option (Outcome A);
}.
Arguments calls {C A} _.
Arguments outcome {C A} _.

Definition Command_ret {C A : Type} (a : A) : Command C A :=
  {| calls := []; outcome := Some (Fulfilled a) |}.

(** [throw err]. *)
Definition raise {C A : Type} (err : Error) : Command C A :=
  {| calls := []; outcome := Some (Rejected err) |}.

Definition Command_bind {C A B : Type} (m : Command C A) (f : A -> Command C B)
    : Command C B :=
  match outcome m with
  | Some (Fulfilled a) => {| calls := calls m ++ calls (f a); outcome := outcome (f a) |}
  | Some (Rejected err) => {| calls := calls m; outcome := Some (Rejected err) |}
  | None => {| calls := calls m; outcome := None |}
  end.

#[export] Instance Command_mret {C : Type} : MRet (Command C) := @Command_ret C.
#[export] Instance Command_mbind {C : Type} : MBind (Command C) :=
  fun A B f m => Command_bind m f.

(** A call that returns at once. *)
Definition tell {C : Type} (c : C) : Command C unit :=
  {| calls := [c]; outcome := Some (Fulfilled tt) |}.

(** A call whose promise is awaited; [settles] is how the host settles it. *)
Definition ask {C A : Type} (c : C) (settles : option (Outcome A)) : Command C A :=
  {| calls := [c]; outcome := settles |}.

(** [try { body } catch (e) { handler }]. *)
Definition Command_catch {C A : Type} (body : Command C A) (handler : Error -> Command C A)
    : Command C A :=
  match outcome body with
  | Some (Rejected e) =>
      {| calls := calls body ++ calls (handler e); outcome := outcome (handler e) |}
  | _ => body
  end.

(** [s.slice(start)]. *)
Fixpoint slice (start : nat) (s : string) : string :=
  match start, s with
  | S n, String _ rest => slice n rest
  | _, _ => s
  end.

(** [s.split(sep)] for a separator of one character. *)
Fixpoint split (sep : Ascii.ascii) (s : string) : list string :=
  match s with
  | EmptyString => [EmptyString]
  | String c rest =>
      if Ascii.eqb c sep then EmptyString :: split sep rest
      else match split sep rest with
           | segment :: segments => String c segment :: segments
           | [] => [String c EmptyString]
           end
  end.

(** The double quote. *)
Definition quote : string := String (Ascii.ascii_of_nat 34) EmptyString.

(** ** downloadFileAs.ts, lines 115-167: one file from the explorer *)

Module S3FileNode.
Record t := { bucket : Bucket.t; file : File.t; s3 : S3Client }.
End S3FileNode.

Inductive OutputChannel := globals_outputChannel | OutputChannel_other (id : nat).

(** [vscode.SaveDialogOptions]; [filters] in insertion order. *)
Module SaveDialogOptions.
Record t := {
  defaultUri : Uri.t;
  saveLabel : string;
  filters : list (string * list string);
}.
End SaveDialogOptions.

(** The calls [downloadFileAsCommand] makes: to the dialog, to
    [setDefaultDownloadPath], to the output channel, and to [downloadFile]. *)
Inductive HostCall :=
| showSaveDialog (w : Window) (options : SaveDialogOptions.t)
| setDefaultDownloadPath (downloadPath : string)
| showOutputMessage (message : string) (outputChannel : OutputChannel)
| downloadFile_begins (file : S3File) (options : DownloadFileOptions).

(** The host of [downloadFileAsCommand]: the environment of the downloads,
    [path.extname], the answer to the save dialog (nothing when it is
    dismissed), [readablePath], the rendering of a [Uri] in a template string,
    and the telemetry span the command runs in. *)
Record Host := {
  outside : Env;
  extname : string -> string;
  saveDialog : Window -> SaveDialogOptions.t -> option Uri.t;
  readablePath : S3FileNode.t -> string;
  Uri_toString : Uri.t -> string;
  telemetry_run : forall A : Type, string -> Command HostCall A -> Command HostCall A;
}.

(** The options of the save dialog, lines 153-166. *)
Definition save_dialog_options (h : Host) (fileName : string) (saveLocation : string)
    : SaveDialogOptions.t :=
  let extension := extname h fileName in
  (* Insertion order matters, as it determines the ordering in the filters dropdown *)
  let filters :=
    if truthy extension
    then [("*" +:+ extension, [slice 1 extension]); ("All Files", ["*"])]
    else [("All Files", ["*"])] in
  let downloadPath := join (outside h) saveLocation fileName in
  {| SaveDialogOptions.defaultUri := Uri.file downloadPath;
     SaveDialogOptions.saveLabel := "Download";
     SaveDialogOptions.filters := filters |}.

Definition promptForSaveLocation (h : Host) (fileName : string) (w : Window)
    (saveLocation : string) : Command HostCall (option Uri.t) :=
  let options := save_dialog_options h fileName saveLocation in
  ask (showSaveDialog w options) (Some (Fulfilled (saveDialog h w options))).

(** [{ ...file, bucket }]. *)
Definition file_of_node (node : S3FileNode.t) : S3File :=
  {| bucket := S3FileNode.bucket node;
     key := File.key (S3FileNode.file node);
     name := File.name (S3FileNode.file node);
     sizeBytes := File.sizeBytes (S3FileNode.file node) |}.

(** The options of lines 136-141. *)
Definition file_download_options (node : S3FileNode.t) (w : Window) (destination : Uri.t)
    : DownloadFileOptions :=
  {| progressLocation := Some Notification;
     saveLocation := Some destination;
     window := Some w;
     timeout := None;
     client := Some (S3FileNode.s3 node) |}.

(** [downloadFileAsCommand]; [world] is read by [getDefaultDownloadPath], and
    an argument left out takes its default. *)
Definition downloadFileAsCommand (h : Host) (world_ : World) (node : S3FileNode.t)
    (window_ : option Window) (outputChannel_ : option OutputChannel)
    : Command HostCall unit :=
  let w := default Window_vscode window_ in
  let outputChannel := default globals_outputChannel outputChannel_ in
  let sourcePath := readablePath h node in
  telemetry_run h unit "s3_downloadObject"
    (let downloadPath := defaultDownloadPath world_ in
     saveLocation ← promptForSaveLocation h (File.name (S3FileNode.file node)) w downloadPath;
     match saveLocation with
     | None => raise (CancellationError user)
     | Some saveLocation =>
         _ ← tell (setDefaultDownloadPath (Uri.fsPath saveLocation));
         _ ← tell (showOutputMessage
                     ("Downloading " +:+ quote +:+ sourcePath +:+ quote +:+ " to: "
                        +:+ Uri_toString h saveLocation) outputChannel);
         _ ← ask (downloadFile_begins (file_of_node node)
                    (file_download_options node w saveLocation))
               (downloadFile (store (outside h)) (file_of_node node)
                  (Some (file_download_options node w saveLocation)));
         tell (showOutputMessage ("Downloaded: " +:+ Uri_toString h saveLocation) outputChannel)
     end).

(** A telemetry span that hands the result of its callback through. *)
Definition transparent (h : Host) : Prop :=
  forall (A : Type) (metric : string) (body : Command HostCall A),
    telemetry_run h A metric body = body.


(** Whether a message of the output channel announces a finished download. *)
Definition announces_completion (c : HostCall) : bool :=
  match c with
  | showOutputMessage message _ => String.prefix "Downloaded: " message
  | _ => false
  end.

Definition node_A : S3FileNode.t :=
  {| S3FileNode.bucket := reports_bucket;
     S3FileNode.file := {| File.key := "2024/a.txt"; File.name := "a.txt"; File.sizeBytes := 2 |};
     S3FileNode.s3 := DefaultS3Client "us-west-2" |}.

Definition node_B : S3FileNode.t :=
  {| S3FileNode.bucket := reports_bucket;
     S3FileNode.file := {| File.key := "2024/b.txt"; File.name := "b.txt"; File.sizeBytes := 3 |};
     S3FileNode.s3 := DefaultS3Client "us-west-2" |}.

(** A host whose user saves under the name proposed, in a listed world. *)
Definition friendly_host : Host :=
  {| outside := friendly_env;
     extname := fun _ => ".txt";
     saveDialog := fun _ options => Some (SaveDialogOptions.defaultUri options);
     readablePath := fun node =>
       "s3://" +:+ Bucket.name (S3FileNode.bucket node) +:+ "/"
         +:+ File.key (S3FileNode.file node);
     Uri_toString := fun u => "file://" +:+ Uri.path u;
     telemetry_run := fun _ _ body => body |}.

(** The same host when the user dismisses the save dialog. *)
Definition dismissing_host : Host :=
  {| outside := friendly_env;
     extname := extname friendly_host;
     saveDialog := fun _ _ => None;
     readablePath := readablePath friendly_host;
     Uri_toString := Uri_toString friendly_host;
     telemetry_run := fun _ _ body => body |}.

(** ** The activation of the environment support (downloadFileAs.ts, lines 266-375) *)

Module MdeRootNode.
Record t := { regionCode : string }.
End MdeRootNode.

Module MdeEnvironment.
Record t := { id : string }.
End MdeEnvironment.

(** [ctx.extensionContext.globalState] is the memento, whose values are
    read here as records of booleans. *)
Record ExtContext := { globalState : gmap string (gmap string bool) }.

(** [memento.get(key, {})]. *)
Definition Memento_get (memento : gmap string (gmap string bool)) (key_ : string)
    : gmap string bool :=
  default ∅ (memento !! key_).

(** [memento.update(key, value)]. *)
Definition Memento_update (memento : gmap string (gmap string bool)) (key_ : string)
    (value : gmap string bool) : gmap string (gmap string bool) :=
  <[key_ := value]> memento.

Inductive LogArgument :=
| logged_node (treenode : option MdeRootNode.t)
| logged_error (e : Error).

(** What the activation code asks of the host. *)
Inductive MdeCall :=
| resumeEnvironments (ctx : ExtContext)
| logger_debug (message : string) (args : list LogArgument)
| logger_error (message : string) (args : list LogArgument)
| createMdeWebview (ctx : ExtContext)
| executeCommand (command : string) (treenode : option MdeRootNode.t).

Definition slash : Ascii.ascii := Ascii.ascii_of_nat 47.

Section Activation.

(** The key of [./constants] and the rendering of an error in a template
    string; [resumed] is how the promise of [resumeEnvironments] settles. *)
Variable MDE_RESTART_KEY : string.
Variable describe : Error -> string.
Variable resumed : ExtContext -> option (Outcome unit).

(** [handleRestart]: the context it leaves and the calls it makes. *)
Definition handleRestart (ctx : ExtContext) (arn_ : option string) : ExtContext * list MdeCall :=
  match arn_ with
  | Some arn_ =>
      (* Remove this environment *)
      let memento := globalState ctx in
      let pendingRestarts := Memento_get memento MDE_RESTART_KEY in
      let pendingRestarts := delete (default "" (last (split slash arn_))) pendingRestarts in
      ({| globalState := Memento_update memento MDE_RESTART_KEY pendingRestarts |}, [])
  | None =>
      (* Resume environments (if coming from a restart) *)
      (ctx,
       calls (Command_catch (ask (resumeEnvironments ctx) (resumed ctx))
                (fun err =>
                   tell (logger_error ("Error while resuming environments: " +:+ describe err) []))))
  end.

End Activation.

(** The handler registered as [aws.mde.create] (lines 331-351); [webview]
    and [refresh] are how the promises of [createMdeWebview] and of
    [executeCommand] settle. *)
Definition aws_mde_create (webview : option (Outcome (option MdeEnvironment.t)))
    (refresh : option (Outcome unit)) (ctx : ExtContext) (treenode : option MdeRootNode.t)
    : Command MdeCall unit :=
  _ ← tell (logger_debug "MDE: mdeCreateCommand called on node: %O" [logged_node treenode]);
  Command_catch
    (env ← ask (createMdeWebview ctx) webview;
     match env with
     | None => tell (logger_error "MDE: user cancelled create environment" [])
     | Some _ => ask (executeCommand "aws.refreshAwsExplorerNode" treenode) refresh
     end)
    (fun e => tell (logger_error "MDE: create failed: %O" [logged_error e])).

(** Whether [c] occurs in [s]. *)
Fixpoint contains (c : Ascii.ascii) (s : string) : bool :=
  match s with
  | EmptyString => false
  | String c' rest => Ascii.eqb c' c || contains c rest
  end.

Definition is_logger_error (c : MdeCall) : bool :=
  match c with
  | logger_error _ _ => true
  | _ => false
  end.

(** A context in which two environments wait to be restarted. *)
Definition restarting_ctx : ExtContext :=
  {| globalState := {[ "mde.restart" := {[ "env-1" := true; "env-2" := true ]} ]} |}.

(* ===================================================================== *)
(** * Part II: properties *)
(* ===================================================================== *)

(** ** The progress reporter *)

Section Reporter.
Local Open Scope Q_scope.

Lemma Zpos_of_nat (n : nat) : (0 < n)%nat -> Z.pos (Pos.of_nat n) = Z.of_nat n.
Proof.
  intros Hn. rewrite <- (Nat2Pos.id n) at 2 by lia. now rewrite positive_nat_Z.
Qed.

Lemma percentage_bounded (r : Reporter) : 0 <= percentage r /\ percentage r <= 100.
Proof.
  unfold percentage. destruct (Nat.leb_spec (totalBytes r) (loadedBytes r)) as [Hle|Hlt].
  - split; unfold Qle; simpl; lia.
  - split; unfold Qle; simpl; rewrite ?Zpos_of_nat by lia; lia.
Qed.

Lemma percentage_monotone (r r' : Reporter) :
  totalBytes r = totalBytes r' -> (loadedBytes r <= loadedBytes r')%nat ->
  percentage r <= percentage r'.
Proof.
  intros Htotal Hloaded. unfold percentage. rewrite <- Htotal.
  destruct (Nat.leb_spec (totalBytes r) (loadedBytes r)) as [Hle|Hlt];
    destruct (Nat.leb_spec (totalBytes r) (loadedBytes r')) as [Hle'|Hlt'];
    try lia; unfold Qle; simpl; rewrite ?Zpos_of_nat by lia; try lia.
  apply Z.mul_le_mono_nonneg_r; lia.
Qed.

Lemma percentage_capped (r : Reporter) :
  (totalBytes r <= loadedBytes r)%nat -> percentage r = 100.
Proof.
  intros Hle. unfold percentage. now destruct (Nat.leb_spec (totalBytes r) (loadedBytes r)); [|lia].
Qed.

Lemma reports_length (r : Reporter) (deltas : list nat) :
  length (reports r deltas) = length deltas.
Proof.
  revert r. induction deltas as [|delta rest IH]; intros r; simpl; [reflexivity|].
  now rewrite IH.
Qed.

(** Every update sent from [r] on is at least the percentage [r] stands at. *)
Lemma reports_above (r : Reporter) (deltas : list nat) :
  Forall (fun pct => percentage r <= pct) (reports r deltas).
Proof.
  revert r. induction deltas as [|delta rest IH]; intros r; simpl; constructor.
  - apply percentage_monotone; simpl; [reflexivity|lia].
  - eapply Forall_impl; [apply IH|]. intros pct Hpct. simpl in Hpct.
    eapply Qle_trans; [|exact Hpct]. apply percentage_monotone; simpl; [reflexivity|lia].
Qed.

Lemma reports_sorted (r : Reporter) (deltas : list nat) :
  StronglySorted Qle (reports r deltas).
Proof.
  revert r. induction deltas as [|delta rest IH]; intros r; simpl; constructor.
  - apply IH.
  - apply (reports_above {| totalBytes := totalBytes r; loadedBytes := loadedBytes r + delta |}).
Qed.

Lemma reports_bounded (r : Reporter) (deltas : list nat) :
  Forall (fun pct => 0 <= pct /\ pct <= 100) (reports r deltas).
Proof.
  revert r. induction deltas as [|delta rest IH]; intros r; simpl; constructor.
  - apply percentage_bounded.
  - apply IH.
Qed.

Lemma reports_lookup (r : Reporter) (deltas : list nat) (n : nat) (pct : Q) :
  reports r deltas !! n = Some pct ->
  pct = percentage {| totalBytes := totalBytes r;
                      loadedBytes := received r (take (S n) deltas) |}.
Proof.
  revert r n. induction deltas as [|delta rest IH]; intros r n; simpl; [discriminate|].
  destruct n as [|n]; simpl.
  - intros [= <-]. unfold received. simpl. f_equal. f_equal. lia.
  - intros Hn. rewrite (IH _ _ Hn). unfold received. simpl. f_equal. f_equal. lia.
Qed.

(** C7. For every sequence of byte-count deltas fed to a reporter created
    with a total-bytes hint, one percentage is reported per delta, the
    percentages never decrease, each lies in [0, 100], and once the running
    total of received bytes exceeds the hint the percentage reported is 100. *)
Theorem progress_percentages_monotone_and_clamped :
  forall (hint : nat) (deltas : list nat),
    let sent := reports (progressReporter hint) deltas in
    length sent = length deltas
    /\ StronglySorted Qle sent
    /\ Forall (fun pct => 0 <= pct /\ pct <= 100) sent
    /\ (forall (n : nat) (pct : Q),
          sent !! n = Some pct -> (hint < sum_list (take (S n) deltas))%nat -> pct = 100).
Proof.
  intros hint deltas sent. subst sent. repeat split.
  - apply reports_length.
  - apply reports_sorted.
  - apply reports_bounded.
  - intros n pct Hn Hover. rewrite (reports_lookup _ _ _ _ Hn).
    apply percentage_capped. unfold received. simpl. lia.
Qed.

End Reporter.

(** ** Sinks *)

Lemma BufferWriter_new_holds (sizeHint : nat) : holds (BufferWriter_new sizeHint) [].
Proof. split; [reflexivity|]. simpl. now rewrite take_0. Qed.

Lemma BufferWriter_write_holds (w : BufferWriter) (acc chunk : Buffer) :
  holds w acc -> holds (BufferWriter_write w chunk) (acc ++ chunk).
Proof.
  intros [Hoff Htake]. unfold holds, BufferWriter_write. simpl.
  assert (Hlen : offset w <= length (storage w)).
  { rewrite <- Htake in Hoff. rewrite length_take in Hoff. lia. }
  set (grown := if (offset w + length chunk <=? length (storage w))%nat then storage w
                else storage w ++ Buffer_alloc (offset w + length chunk - length (storage w))).
  assert (Hfront : take (offset w) grown = acc).
  { subst grown. destruct (_ <=? _)%nat; [exact Htake|].
    rewrite take_app_le by lia. exact Htake. }
  rewrite Hfront, length_app. split; [lia|].
  rewrite app_assoc, take_app_le by (rewrite length_app; lia).
  rewrite take_ge by (rewrite length_app; lia). reflexivity.
Qed.

Lemma BufferWriter_finish_holds (w : BufferWriter) (acc : Buffer) :
  holds w acc -> BufferWriter_finish w = acc.
Proof. now intros [_ Htake]. Qed.

(** ** One download *)

Lemma dispatch_settled (t : Transfer) (ev : StreamEvent) :
  state t <> flowing -> dispatch t ev = t.
Proof. unfold dispatch. now destruct (state t). Qed.

Lemma foldl_dispatch_settled (t : Transfer) (evs : list StreamEvent) :
  state t <> flowing -> foldl dispatch t evs = t.
Proof.
  induction evs as [|ev evs IH]; intros Hstate; simpl; [reflexivity|].
  rewrite dispatch_settled by exact Hstate. now apply IH.
Qed.

(** Listeners stay registered for the life of the stream. *)
Lemma dispatch_listeners (t : Transfer) (ev : StreamEvent) :
  onTimeoutCancel (dispatch t ev) = onTimeoutCancel t
  /\ onProgressCancel (dispatch t ev) = onProgressCancel t.
Proof.
  unfold dispatch, destroy. destruct (state t); [|easy|easy].
  destruct ev; simpl; try easy.
  - now destruct (onTimeoutCancel t) eqn:E.
  - now destruct (onProgressCancel t) eqn:E.
Qed.

Lemma foldl_dispatch_listeners (evs : list StreamEvent) (t : Transfer) :
  onTimeoutCancel (foldl dispatch t evs) = onTimeoutCancel t
  /\ onProgressCancel (foldl dispatch t evs) = onProgressCancel t.
Proof.
  revert t. induction evs as [|ev evs IH]; intros t; simpl; [easy|].
  destruct (IH (dispatch t ev)) as [-> ->]. apply dispatch_listeners.
Qed.

Lemma foldl_dispatch_data (t : Transfer) (w : BufferWriter) (acc : Buffer)
    (chunks : list Buffer) :
  state t = flowing -> sink t = ToBuffer w -> holds w acc ->
  exists w', state (foldl dispatch t (data <$> chunks)) = flowing
    /\ sink (foldl dispatch t (data <$> chunks)) = ToBuffer w'
    /\ holds w' (acc ++ concat chunks).
Proof.
  revert t w acc. induction chunks as [|chunk chunks IH]; intros t w acc Hstate Hsink Hw; simpl.
  - exists w. now rewrite app_nil_r.
  - assert (Hd : dispatch t (data chunk) = on_data t chunk)
      by (unfold dispatch; now rewrite Hstate).
    rewrite Hd.
    destruct (IH (on_data t chunk) (BufferWriter_write w chunk) (acc ++ chunk))
      as (w' & Hstate' & Hsink' & Hw').
    + exact Hstate.
    + simpl. now rewrite Hsink.
    + now apply BufferWriter_write_holds.
    + exists w'. rewrite <- app_assoc in Hw'. auto.
Qed.

(** With a progress location given, every chunk received is reported to
    the reporter created for [file.sizeBytes], by its length. *)
Lemma chunks_are_reported (file : S3File) (options : option DownloadFileOptions)
    (chunks : list Buffer) :
  is_Some (options ≫= progressLocation) ->
  reported (foldl dispatch (wire file options) (data <$> chunks))
  = reports (progressReporter (sizeBytes file)) (length <$> chunks).
Proof.
  intros Hprogress.
  assert (Hgen : forall (t : Transfer) (r : Reporter),
            state t = flowing -> reporter t = Some r ->
            reported (foldl dispatch t (data <$> chunks))
            = reported t ++ reports r (length <$> chunks)).
  { induction chunks as [|chunk rest IH]; intros t r Hstate Hreporter; cbn.
    - now rewrite app_nil_r.
    - assert (Hd : dispatch t (data chunk) = on_data t chunk)
        by (unfold dispatch; now rewrite Hstate).
      rewrite Hd.
      rewrite (IH (on_data t chunk)
                 {| totalBytes := totalBytes r; loadedBytes := loadedBytes r + length chunk |}).
      + unfold on_data. rewrite Hreporter. cbn. now rewrite <- app_assoc.
      + exact Hstate.
      + unfold on_data. now rewrite Hreporter. }
  rewrite (Hgen (wire file options) (progressReporter (sizeBytes file))).
  - reflexivity.
  - reflexivity.
  - unfold wire. cbn. now rewrite bool_decide_eq_true_2.
Qed.

(** C8. In buffer mode (no save location), when the store hands out a
    stream that produces the chunks [chunks] and ends, the download is
    fulfilled with a buffer holding exactly the bytes of those chunks, in
    order, whatever [sizeBytes] the object was listed with. *)
Theorem buffer_download_yields_stream_bytes :
  forall (store : Store) (c : S3Client) (file : S3File)
         (options : option DownloadFileOptions) (downloadStream : Readable)
         (chunks : list Buffer),
    options ≫= saveLocation = None ->
    downloadFileStream store c (Bucket.name (bucket file)) (key file) = Fulfilled downloadStream ->
    timeline store downloadStream = (data <$> chunks) ++ [end_of_stream] ->
    downloadS3File store c file options = Some (Fulfilled (Some (concat chunks))).
Proof.
  intros store c file options downloadStream chunks Hmode Hopen Hevents.
  unfold downloadS3File. rewrite Hopen, Hevents, foldl_app.
  destruct (foldl_dispatch_data (wire file options) (BufferWriter_new (sizeBytes file)) [] chunks)
    as (w & Hstate & Hsink & Hw).
  - reflexivity.
  - unfold wire. simpl. now rewrite Hmode.
  - apply BufferWriter_new_holds.
  - set (t := foldl dispatch (wire file options) (data <$> chunks)) in *.
    cbn [foldl]. unfold dispatch at 1. rewrite Hstate.
    unfold settled. cbn. rewrite Hsink. cbn.
    now rewrite (BufferWriter_finish_holds _ _ Hw).
Qed.

(** The hint of [file_A] (2 bytes) is smaller than the three bytes streamed. *)
Lemma buffer_download_yields_stream_bytes_witness :
  downloadS3File abc_store (DefaultS3Client "us-west-2") file_A None
  = Some (Fulfilled (Some [Byte.x61; Byte.x62; Byte.x63])).
Proof.
  apply (buffer_download_yields_stream_bytes abc_store (DefaultS3Client "us-west-2") file_A None
           {| stream_id := 10 |} abc_chunks); reflexivity.
Defined.

(** C5. With a cancellation token supplied ([options.timeout]), a
    cancellation that fires while the stream is in flight destroys the stream
    at once with [CancellationError(agent)], and [downloadS3File] is rejected
    with that error whatever the stream would have produced afterwards; it is
    never fulfilled with the partial result. *)
Theorem cancellation_destroys_stream_and_rejects :
  forall (store : Store) (c : S3Client) (file : S3File)
         (options : option DownloadFileOptions) (tm : Timeout) (downloadStream : Readable)
         (before after : list StreamEvent) (ev : StreamEvent) (agent : CancellationAgent),
    options ≫= timeout = Some tm ->
    downloadFileStream store c (Bucket.name (bucket file)) (key file) = Fulfilled downloadStream ->
    timeline store downloadStream = before ++ ev :: after ->
    state (foldl dispatch (wire file options) before) = flowing ->
    cancels options ev agent ->
    state (dispatch (foldl dispatch (wire file options) before) ev)
      = destroyed (CancellationError agent)
    /\ downloadS3File store c file options = Some (Rejected (CancellationError agent))
    /\ (forall partial, downloadS3File store c file options <> Some (Fulfilled partial)).
Proof.
  intros store c file options tm downloadStream before after ev agent
    Htimeout Hopen Hevents Hflight Hcancel.
  set (t := foldl dispatch (wire file options) before) in *.
  assert (Hlisten : onTimeoutCancel t = true /\
                    (is_Some (options ≫= progressLocation) -> onProgressCancel t = true)).
  { subst t. destruct (foldl_dispatch_listeners before (wire file options)) as [-> ->].
    unfold wire. simpl. rewrite Htimeout. split.
    - now rewrite bool_decide_eq_true_2 by eauto.
    - intros Hprogress. now rewrite !bool_decide_eq_true_2 by eauto. }
  destruct Hlisten as [Htimer Hbutton].
  assert (Hdestroyed : state (dispatch t ev) = destroyed (CancellationError agent)).
  { unfold dispatch, destroy. rewrite Hflight.
    destruct Hcancel as [->|(-> & -> & Hprogress)].
    - rewrite Htimer. reflexivity.
    - rewrite (Hbutton Hprogress). reflexivity. }
  assert (Hresult : downloadS3File store c file options
                    = Some (Rejected (CancellationError agent))).
  { unfold downloadS3File. rewrite Hopen, Hevents, foldl_app. simpl. fold t.
    rewrite foldl_dispatch_settled by (rewrite Hdestroyed; discriminate).
    unfold settled. now rewrite Hdestroyed. }
  split; [exact Hdestroyed|]. split; [exact Hresult|].
  intros partial. rewrite Hresult. discriminate.
Qed.

(** The timeout fires after "ab" has arrived: the download is rejected
    although the store would have gone on to deliver "c" and end. *)
Lemma cancellation_destroys_stream_and_rejects_witness :
  state (dispatch (foldl dispatch (wire file_A (Some timed_options)) [data [Byte.x61; Byte.x62]])
           (cancellationRequested by_timeout))
    = destroyed (CancellationError by_timeout)
  /\ downloadS3File interrupted_store (DefaultS3Client "us-west-2") file_A (Some timed_options)
     = Some (Rejected (CancellationError by_timeout))
  /\ (forall partial,
        downloadS3File interrupted_store (DefaultS3Client "us-west-2") file_A (Some timed_options)
        <> Some (Fulfilled partial)).
Proof.
  apply (cancellation_destroys_stream_and_rejects interrupted_store (DefaultS3Client "us-west-2")
           file_A (Some timed_options) {| timeout_millis := 5000 |} {| stream_id := 10 |}
           [data [Byte.x61; Byte.x62]] [data [Byte.x63]; end_of_stream]
           (cancellationRequested by_timeout) by_timeout);
    [reflexivity|reflexivity|reflexivity|reflexivity|now left].
Defined.

(** C6. Whenever the single-file download [downloadS3File] fails,
    [downloadFile] fails with the error that chains the underlying cause
    under the message naming the file and carries as details the bucket, the
    object key and, when a save location was given, its path. *)
Theorem downloadFile_wraps_failure :
  forall (store : Store) (file : S3File) (options : option DownloadFileOptions)
         (cause : Error),
    downloadS3File store
      (default (DefaultS3Client (Bucket.region (bucket file))) (options ≫= client))
      file options = Some (Rejected cause) ->
    downloadFile store file options
    = Some (Rejected (ToolkitError ("Failed to download file " +:+ name file) cause
        {| ErrorDetails.bucket := bucket file;
           ErrorDetails.path := key file;
           ErrorDetails.destination := Uri.path <$> (options ≫= saveLocation) |})).
Proof.
  intros store file options cause Hfails. unfold downloadFile. now rewrite Hfails.
Qed.

Lemma downloadFile_wraps_failure_witness :
  downloadFile abc_store file_B
    (Some (folder_download_options (DefaultS3Client "us-west-2") "/home/user/Downloads/b.txt"))
  = Some (Rejected (ToolkitError "Failed to download file b.txt" (ServiceError "NoSuchKey")
      {| ErrorDetails.bucket := reports_bucket;
         ErrorDetails.path := "2024/b.txt";
         ErrorDetails.destination := Some "/home/user/Downloads/b.txt" |})).
Proof.
  apply (downloadFile_wraps_failure abc_store file_B
    (Some (folder_download_options (DefaultS3Client "us-west-2") "/home/user/Downloads/b.txt"))
    (ServiceError "NoSuchKey")).
  reflexivity.
Defined.

(** A download that succeeds passes through [downloadFile] unchanged. *)
Lemma downloadFile_passes_success (store : Store) (file : S3File)
    (options : option DownloadFileOptions) (v : option Buffer) :
  downloadS3File store
    (default (DefaultS3Client (Bucket.region (bucket file))) (options ≫= client))
    file options = Some (Fulfilled v) ->
  downloadFile store file options = Some (Fulfilled v).
Proof. intros Hok. unfold downloadFile. now rewrite Hok. Qed.

(** Every failure of [downloadFile] is such a wrapper. *)
Lemma downloadFile_rejected_inv (store : Store) (file : S3File)
    (options : option DownloadFileOptions) (err : Error) :
  downloadFile store file options = Some (Rejected err) ->
  exists cause,
    err = ToolkitError_chain cause (download_error_message file)
            (download_error_details file options).
Proof.
  unfold downloadFile. destruct (downloadS3File _ _ _ _) as [[v|cause]|]; simpl; try discriminate.
  intros [= <-]. now exists cause.
Qed.

(** ** The scheduler *)

(** Induction over the body of a task. *)
Lemma Async_unit_ind (P : Async unit -> Prop) :
  (forall r, P (Ret r)) ->
  (forall err, P (Throw err)) ->
  (forall A (op : Sync A) k, (forall a, P (k a)) -> P (Do op k)) ->
  (forall A (p : Awaitable A) k, (forall o, P (k o)) -> P (Await p k)) ->
  (forall t k, P t -> P k -> P (Launch t k)) ->
  forall t, P t.
Proof.
  intros Hret Hthrow Hdo Hawait Hlaunch.
  fix IH 1. intros [r|err|A op k|A p k|t k].
  - apply Hret.
  - apply Hthrow.
  - apply Hdo. intros a. apply IH.
  - apply Hawait. intros o. apply IH.
  - apply Hlaunch; apply IH.
Qed.

(** Running a task touches no promise but its own and those of the tasks it
    launches, and parks only itself and tasks it launches. *)
Lemma run_frame (env : Env) (t : Async unit) :
  forall (pid : nat) (l : Loop),
    next_task l <= next_task (run env pid t l)
    /\ (forall q, q <> pid -> q < next_task l ->
          promises (run env pid t l) !! q = promises l !! q)
    /\ exists added,
         suspended (run env pid t l) = suspended l ++ added
         /\ Forall (fun s => task s = pid
                             \/ (next_task l <= task s < next_task (run env pid t l))) added.
Proof.
  induction t as [r|err|A op k IH|A p k IH|child k IHchild IHk] using Async_unit_ind;
    intros pid l; cbn [run].
  - split; [reflexivity|]. split.
    + intros q Hq _. cbn. now rewrite lookup_insert_ne.
    + exists []. cbn. now rewrite app_nil_r.
  - split; [reflexivity|]. split.
    + intros q Hq _. cbn. now rewrite lookup_insert_ne.
    + exists []. cbn. now rewrite app_nil_r.
  - destruct (perform_sync env op (world l)) as [a w].
    apply (IH a pid (set_world l w)).
  - split; [reflexivity|]. split; [reflexivity|].
    eexists [_]. split; [reflexivity|]. constructor; [now left|constructor].
  - destruct (IHchild (next_task l) (fresh_task l)) as (Hn1 & Hp1 & added1 & Hs1 & Ha1).
    set (l1 := run env (next_task l) child (fresh_task l)) in *.
    destruct (IHk pid l1) as (Hn2 & Hp2 & added2 & Hs2 & Ha2).
    cbn in Hn1, Hp1, Hs1, Ha1.
    split; [lia|]. split.
    + intros q Hq Hlt. rewrite Hp2 by lia. apply Hp1; lia.
    + exists (added1 ++ added2). split.
      * rewrite Hs2, Hs1. now rewrite app_assoc.
      * apply Forall_app. split.
        -- eapply Forall_impl; [exact Ha1|]. cbn. intros s [Hs|Hs]; right; lia.
        -- eapply Forall_impl; [exact Ha2|]. cbn. intros s [Hs|Hs]; [now left|right; lia].
Qed.

(** A promise whose task is no longer parked keeps its state forever. *)
Lemma promise_stable (env : Env) (q : nat) (schedule : list nat) :
  forall l : Loop,
    q < next_task l ->
    Forall (fun s => task s <> q /\ task s < next_task l) (suspended l) ->
    promise (turns env l schedule) q = promise l q.
Proof.
  induction schedule as [|i schedule IH]; intros l Hq Hparked; [reflexivity|].
  cbn [turns foldl]. fold (turns env (step env l i) schedule).
  unfold step. destruct (suspended l !! i) as [s|] eqn:Hi; [|now apply IH].
  destruct (answer_of env (awaiting s)) as [o|]; [|now apply IH].
  destruct (run_frame env (resume s o) (task s) (unpark i l)) as (Hn & Hp & added & Hs & Ha).
  cbn in Hn, Hp, Hs, Ha.
  assert (Hs_ok : task s <> q /\ task s < next_task l).
  { rewrite Forall_forall in Hparked. apply Hparked. eapply list_elem_of_lookup_2. exact Hi. }
  rewrite IH.
  - unfold promise. apply Hp; [intros ->; now destruct Hs_ok|exact Hq].
  - lia.
  - rewrite Hs. apply Forall_app. split.
    + apply Forall_forall. intros s' Hs'.
      assert (Hin : s' ∈ suspended l) by (eapply list_elem_of_delete_inv; exact Hs').
      rewrite Forall_forall in Hparked. destruct (Hparked s' Hin). split; [assumption|lia].
    + eapply Forall_impl; [exact Ha|]. cbn. intros s' [->|Hs']; split; try lia; tauto.
Qed.

(** No call the tasks can make writes [totalDownloaded]. *)
Lemma perform_sync_totalDownloaded (env : Env) {A : Type} (op : Sync A) (w : World) (i : nat) :
  i < length (managers w) ->
  i < length (managers (perform_sync env op w).2)
  /\ S3DownloadFilesManager.totalDownloaded (managers (perform_sync env op w).2 !!! i)
     = S3DownloadFilesManager.totalDownloaded (managers w !!! i).
Proof.
  intros Hi. destruct op; cbn; try (split; [assumption|reflexivity]).
  - destruct (bool_decide _); [now split|]. destruct (mkdir_fault env p); now split.
  - rewrite length_app. split; [lia|]. now rewrite lookup_total_app_l.
  - rewrite length_alter. split; [assumption|].
    rewrite list_lookup_total_alter. case_decide as Hthis; [|reflexivity].
    destruct Hthis as [-> _]. reflexivity.
Qed.

Lemma run_totalDownloaded (env : Env) (t : Async unit) :
  forall (pid : nat) (l : Loop) (i : nat),
    i < length (managers (world l)) ->
    i < length (managers (world (run env pid t l)))
    /\ S3DownloadFilesManager.totalDownloaded (manager (run env pid t l) i)
       = S3DownloadFilesManager.totalDownloaded (manager l i).
Proof.
  unfold manager.
  induction t as [r|err|A op k IH|A p k IH|child k IHchild IHk] using Async_unit_ind;
    intros pid l i Hi; cbn [run]; try (split; [assumption|reflexivity]).
  - destruct (perform_sync_totalDownloaded env op (world l) i Hi) as [Hlen Heq].
    destruct (perform_sync env op (world l)) as [a w]. cbn in Hlen, Heq.
    destruct (IH a pid (set_world l w) i Hlen) as [Hlen' Heq']. split; [exact Hlen'|].
    now rewrite Heq'.
  - destruct (IHchild (next_task l) (fresh_task l) i Hi) as [Hlen Heq].
    destruct (IHk pid (run env (next_task l) child (fresh_task l)) i Hlen) as [Hlen' Heq'].
    split; [exact Hlen'|]. now rewrite Heq', Heq.
Qed.

(** The counter of downloaded objects keeps its value through every turn of
    every schedule, whatever tasks are parked. *)
Lemma turns_totalDownloaded (env : Env) (schedule : list nat) :
  forall (l : Loop) (i : nat),
    i < length (managers (world l)) ->
    S3DownloadFilesManager.totalDownloaded (manager (turns env l schedule) i)
    = S3DownloadFilesManager.totalDownloaded (manager l i).
Proof.
  induction schedule as [|j schedule IH]; intros l i Hi; [reflexivity|].
  cbn [turns foldl]. fold (turns env (step env l j) schedule).
  unfold step. destruct (suspended l !! j) as [s|]; [|now apply IH].
  destruct (answer_of env (awaiting s)) as [o|]; [|now apply IH].
  destruct (run_totalDownloaded env (resume s o) (task s) (unpark j l) i Hi) as [Hlen Heq].
  rewrite IH by exact Hlen. exact Heq.
Qed.

(** ** The folder manager *)

Lemma run_download_one (env : Env) (pid this : nat) (savePath : string) (file : S3File)
    (l : Loop) :
  run env pid (download_one this savePath file) l
  = park (parked_download this
            (pid, file,
             folder_download_options (S3DownloadFilesManager.client (manager l this))
               (join env savePath (name file)))) l.
Proof. now destruct l. Qed.

Lemma run_forEach_downloads (env : Env) (pid this : nat) (savePath : string)
    (files_ : list S3File) :
  forall l : Loop,
    run env pid (forEach files_ (download_one this savePath)) l
    = {| world := world l;
         suspended := suspended l ++
           (parked_download this <$>
              launched env (next_task l) (S3DownloadFilesManager.client (manager l this))
                savePath files_);
         promises := <[pid := Fulfilled tt]> (promises l);
         next_task := next_task l + length files_ |}.
Proof.
  induction files_ as [|file rest IH]; intros l; cbn [forEach run].
  - destruct l. cbn. now rewrite app_nil_r, Nat.add_0_r.
  - rewrite run_download_one, IH. destruct l. cbn. unfold manager. cbn.
    rewrite <- app_assoc. cbn. f_equal. lia.
Qed.

(** [downloadAll] parks at the folder dialog without touching anything. *)
Lemma run_downloadAll (env : Env) (pid this : nat) (l : Loop) :
  exists k,
    run env pid (downloadAll this) l
    = park {| task := pid;
              awaiting := showOpenDialog Window_vscode (folder_dialog (world l));
              resume := k |} l.
Proof. destruct l. eexists. reflexivity. Qed.

(** The turn in which the folder dialog is answered. *)
Lemma downloadAll_after_dialog (env : Env) (pid this : nat) (w : World)
    (ps : gmap nat (Outcome unit)) (n : nat) :
  step env
    (run env pid (downloadAll this)
       {| world := w; suspended := []; promises := ps; next_task := n |}) 0
  = match chosen_folder env w with
    | None => thrown pid w ps n (CancellationError user)
    | Some saveLocation =>
        match missing_subdirectory env w this saveLocation with
        | None => batch env pid this w ps n (Uri.fsPath saveLocation)
        | Some dir =>
            match mkdir_fault env dir with
            | Some err => thrown pid w ps n err
            | None => batch env pid this (with_dirs w ({[dir]} ∪ dirs w)) ps n dir
            end
        end
    end.
Proof.
  unfold chosen_folder, missing_subdirectory, folder_dialog, batch, thrown.
  cbn -[forEach download_one].
  destruct (dialog env Window_vscode _) as [[|first rest]|]; cbn -[forEach download_one];
    try reflexivity.
  destruct (S3DownloadFilesManager.folderName (managers w !!! this)) as [folder|];
    cbn -[forEach download_one].
  - destruct (truthy folder); cbn -[forEach download_one].
    + destruct (bool_decide (join env (Uri.fsPath first) folder ∈ dirs w)) eqn:Hthere;
        cbn -[forEach download_one].
      * now rewrite run_forEach_downloads.
      * rewrite Hthere.
        destruct (mkdir_fault env (join env (Uri.fsPath first) folder)); cbn -[forEach download_one];
          [reflexivity|].
        now rewrite run_forEach_downloads.
    + now rewrite run_forEach_downloads.
  - now rewrite run_forEach_downloads.
Qed.

(** The turn in which a parked download settles. *)
Lemma step_parked_download (env : Env) (this : nat) (l : Loop) (i : nat)
    (d : nat * S3File * DownloadFileOptions) :
  suspended l !! i = Some (parked_download this d) ->
  step env l i
  = match downloadFile (store env) d.1.2 (Some d.2) with
    | None => l
    | Some (Fulfilled _) => settle d.1.1 (Fulfilled tt) (unpark i l)
    | Some (Rejected _) =>
        settle d.1.1 (Fulfilled tt)
          (set_world (unpark i l)
             (with_managers (world l)
                (alter (S3DownloadFilesManager.push_failed d.1.2) this (managers (world l)))))
    end.
Proof.
  intros Hi. unfold step. rewrite Hi. cbn.
  destruct (downloadFile (store env) d.1.2 (Some d.2)) as [[v|err]|]; reflexivity.
Qed.

Lemma in_flight_parked (this : nat) (ds : list (nat * S3File * DownloadFileOptions))
    (l : Loop) :
  suspended l = parked_download this <$> ds -> in_flight l = job <$> ds.
Proof.
  unfold in_flight. intros ->. induction ds as [|d ds IH]; [reflexivity|].
  cbn. now rewrite IH.
Qed.

Lemma launched_files (env : Env) (c : S3Client) (savePath : string) (files_ : list S3File) :
  forall first,
    job <$> launched env first c savePath files_
    = (fun file => (file, folder_download_options c (join env savePath (name file)))) <$> files_.
Proof.
  induction files_ as [|file rest IH]; intros first; [reflexivity|].
  cbn. now rewrite IH.
Qed.

Lemma launched_tasks (env : Env) (c : S3Client) (savePath : string) (files_ : list S3File) :
  forall first,
    Forall (fun d => first <= d.1.1) (launched env first c savePath files_).
Proof.
  induction files_ as [|file rest IH]; intros first; cbn; constructor; [cbn; lia|].
  eapply Forall_impl; [apply IH|]. cbn. intros d Hd. lia.
Qed.

(** What one turn does to a batch of parked downloads: at most the download
    named by the turn leaves the batch, its task is fulfilled, and the object
    is recorded as failed exactly when its download was rejected. *)
Lemma batch_step (env : Env) (this : nat) (l : Loop)
    (ds : list (nat * S3File * DownloadFileOptions)) (i : nat) :
  suspended l = parked_download this <$> ds ->
  this < length (managers (world l)) ->
  exists ds',
    suspended (step env l i) = parked_download this <$> ds'
    /\ sublist ds' ds
    /\ (ds' = ds \/ ds' = delete i ds)
    /\ length (managers (world (step env l i))) = length (managers (world l))
    /\ dirs (world (step env l i)) = dirs (world l)
    /\ failures env this (step env l i) ≡ₚ failures env this l
    /\ (forall q, promises (step env l i) !! q = promises l !! q
                  \/ (promises (step env l i) !! q = Some (Fulfilled tt)
                      /\ exists d, d ∈ ds /\ d.1.1 = q)).
Proof.
  intros Hparked Hthis.
  destruct (ds !! i) as [d|] eqn:Hi.
  2:{ exists ds. unfold step. rewrite Hparked, list_lookup_fmap, Hi. cbn.
      rewrite Hparked. repeat split; auto. }
  assert (Hlookup : suspended l !! i = Some (parked_download this d))
    by now rewrite Hparked, list_lookup_fmap, Hi.
  rewrite (step_parked_download env this l i d Hlookup).
  assert (Hrest : suspended (unpark i l) = parked_download this <$> delete i ds)
    by (cbn; now rewrite Hparked, list_fmap_delete).
  assert (Hperm : in_flight l ≡ₚ job d :: in_flight (unpark i l)).
  { rewrite (in_flight_parked this ds l Hparked), (in_flight_parked this _ _ Hrest).
    rewrite <- fmap_cons. apply fmap_Permutation. now apply delete_Permutation. }
  assert (Hin : d ∈ ds) by (eapply list_elem_of_lookup_2; exact Hi).
  unfold failures, manager.
  destruct (downloadFile (store env) d.1.2 (Some d.2)) as [[v|err]|] eqn:Hanswer.
  - exists (delete i ds). split; [exact Hrest|]. split; [apply sublist_delete|].
    split; [now right|]. split; [reflexivity|]. split; [reflexivity|]. split.
    + rewrite Hperm. rewrite filter_cons_False; [reflexivity|].
      unfold download_fails, job. cbn. now rewrite Hanswer.
    + intros q. cbn. destruct (decide (q = d.1.1)) as [->|Hq].
      * right. rewrite lookup_insert_eq. eauto.
      * left. now rewrite lookup_insert_ne.
  - exists (delete i ds). split; [exact Hrest|]. split; [apply sublist_delete|].
    split; [now right|]. cbn. rewrite length_alter. split; [reflexivity|].
    split; [reflexivity|]. split.
    + rewrite list_lookup_total_alter_eq by exact Hthis. cbn.
      rewrite Hperm. rewrite filter_cons_True
        by (unfold download_fails, job; cbn; now rewrite Hanswer).
      cbn. rewrite <- app_assoc. cbn.
      apply Permutation_app_head. unfold in_flight. cbn. reflexivity.
    + intros q. destruct (decide (q = d.1.1)) as [->|Hq].
      * right. rewrite lookup_insert_eq. eauto.
      * left. now rewrite lookup_insert_ne.
  - exists ds. repeat split; auto.
Qed.

(** The same through any number of turns, in any order. *)
Lemma batch_turns (env : Env) (this : nat) (schedule : list nat) :
  forall (l : Loop) (ds : list (nat * S3File * DownloadFileOptions)),
    suspended l = parked_download this <$> ds ->
    this < length (managers (world l)) ->
    exists ds',
      suspended (turns env l schedule) = parked_download this <$> ds'
      /\ sublist ds' ds
      /\ length (managers (world (turns env l schedule))) = length (managers (world l))
      /\ dirs (world (turns env l schedule)) = dirs (world l)
      /\ failures env this (turns env l schedule) ≡ₚ failures env this l
      /\ (forall q, promises (turns env l schedule) !! q = promises l !! q
                    \/ (promises (turns env l schedule) !! q = Some (Fulfilled tt)
                        /\ exists d, d ∈ ds /\ d.1.1 = q)).
Proof.
  induction schedule as [|i schedule IH]; intros l ds Hparked Hthis.
  - exists ds. cbn. repeat split; auto.
  - cbn [turns foldl]. fold (turns env (step env l i) schedule).
    destruct (batch_step env this l ds i Hparked Hthis)
      as (ds1 & Hparked1 & Hsub1 & _ & Hlen1 & Hdirs1 & Hfail1 & Hprom1).
    destruct (IH (step env l i) ds1 Hparked1 ltac:(lia))
      as (ds' & Hparked' & Hsub' & Hlen' & Hdirs' & Hfail' & Hprom').
    exists ds'. split; [exact Hparked'|]. split; [now transitivity ds1|].
    split; [lia|]. split; [congruence|]. split; [now rewrite Hfail'|].
    intros q. destruct (Hprom' q) as [Hq|[Hq (d & Hd & Hdq)]].
    + rewrite Hq. apply Hprom1.
    + right. split; [exact Hq|]. exists d. split; [|exact Hdq].
      eapply elem_of_sublist; eassumption.
Qed.

(** The loop in which [downloadAll] was called as task 0 and the dialog has
    been answered is a batch of parked downloads launched as tasks 1, 2, ... *)
Lemma downloadAll_batch_state (env : Env) (w : World) (this : nat) :
  exists ds,
    suspended (step env (call env w (downloadAll this)) 0) = parked_download this <$> ds
    /\ Forall (fun d => 1 <= d.1.1) ds
    /\ managers (world (step env (call env w (downloadAll this)) 0)) = managers w
    /\ (forall q, q <> 0 ->
          promises (step env (call env w (downloadAll this)) 0) !! q = None).
Proof.
  unfold call. rewrite downloadAll_after_dialog.
  assert (Hothers : forall (o : Outcome unit) q, q <> 0 ->
            (<[0 := o]> (∅ : gmap nat (Outcome unit))) !! q = None)
    by (intros o q Hq; now rewrite lookup_insert_ne).
  destruct (chosen_folder env w) as [saveLocation|];
    [|exists []; repeat split; auto; apply Hothers].
  destruct (missing_subdirectory env w this saveLocation) as [dir|].
  - destruct (mkdir_fault env dir); [exists []; repeat split; auto; apply Hothers|].
    eexists. split; [reflexivity|]. split; [apply launched_tasks|]. split; [reflexivity|].
    apply Hothers.
  - eexists. split; [reflexivity|]. split; [apply launched_tasks|]. split; [reflexivity|].
    apply Hothers.
Qed.

(** How the promise of [downloadAll] settles when the dialog is answered. *)
Lemma downloadAll_promise (env : Env) (w : World) (this : nat) :
  promise (step env (call env w (downloadAll this)) 0) 0
  = match chosen_folder env w with
    | None => Some (Rejected (CancellationError user))
    | Some saveLocation =>
        match missing_subdirectory env w this saveLocation with
        | None => Some (Fulfilled tt)
        | Some dir =>
            match mkdir_fault env dir with
            | Some err => Some (Rejected err)
            | None => Some (Fulfilled tt)
            end
        end
    end.
Proof.
  unfold call, promise. rewrite downloadAll_after_dialog.
  destruct (chosen_folder env w) as [saveLocation|]; [|apply lookup_insert_eq].
  destruct (missing_subdirectory env w this saveLocation) as [dir|];
    [destruct (mkdir_fault env dir)|]; apply lookup_insert_eq.
Qed.

(** Where the objects are sent once the dialog is answered and
    [downloadAll] has not thrown: into the subdirectory when it has just been
    created, into the chosen destination itself in every other case. *)
Lemma downloadAll_in_flight (env : Env) (w : World) (this : nat) :
  promise (step env (call env w (downloadAll this)) 0) 0 = Some (Fulfilled tt) ->
  exists saveLocation,
    chosen_folder env w = Some saveLocation
    /\ in_flight (step env (call env w (downloadAll this)) 0)
       = (fun file =>
            (file,
             folder_download_options (S3DownloadFilesManager.client (managers w !!! this))
               (join env
                  (default (Uri.fsPath saveLocation) (missing_subdirectory env w this saveLocation))
                  (name file))))
         <$> S3DownloadFilesManager.fileList (managers w !!! this).
Proof.
  rewrite downloadAll_promise. unfold call. rewrite downloadAll_after_dialog.
  destruct (chosen_folder env w) as [saveLocation|]; [|discriminate].
  intros Hok. exists saveLocation. split; [reflexivity|].
  destruct (missing_subdirectory env w this saveLocation) as [dir|].
  - destruct (mkdir_fault env dir); [discriminate|].
    erewrite in_flight_parked by reflexivity. apply launched_files.
  - erewrite in_flight_parked by reflexivity. apply launched_files.
Qed.

Lemma fmap_fst_pair {A B : Type} (f : A -> B) (l : list A) :
  fst <$> ((fun a => (a, f a)) <$> l) = l.
Proof. induction l as [|a l IH]; [reflexivity|]. cbn. now rewrite IH. Qed.

(** Once the dialog is answered, whatever the order in which the downloads
    settle: the promise of [downloadAll] stays as it is, no other promise is
    rejected, the recorded and the coming failures are the same objects, and
    a turn takes at most the download that settled out of the batch. *)
Lemma downloadAll_turns (env : Env) (w : World) (this : nat) (schedule : list nat) :
  this < length (managers w) ->
  let l1 := step env (call env w (downloadAll this)) 0 in
  let l := turns env l1 schedule in
  promise l 0 = promise l1 0
  /\ sublist (in_flight l) (in_flight l1)
  /\ failures env this l ≡ₚ failures env this l1
  /\ (forall q err, promise l q = Some (Rejected err) -> q = 0)
  /\ (forall i, in_flight (step env l i) = in_flight l
                \/ in_flight (step env l i) = delete i (in_flight l)).
Proof.
  intros Hthis l1 l.
  destruct (downloadAll_batch_state env w this) as (ds & Hparked & Htasks & Hmgr & Hfresh).
  fold l1 in Hparked, Hmgr, Hfresh.
  assert (Hthis1 : this < length (managers (world l1))) by now rewrite Hmgr.
  destruct (batch_turns env this schedule l1 ds Hparked Hthis1)
    as (ds' & Hparked' & Hsub & Hlen' & _ & Hfail & Hprom).
  fold l in Hparked', Hlen', Hfail, Hprom.
  assert (Hroot : promise l 0 = promise l1 0).
  { destruct (Hprom 0) as [H0|[_ (d & Hd & Hd0)]]; [exact H0|].
    rewrite Forall_forall in Htasks. specialize (Htasks d Hd). lia. }
  split; [exact Hroot|]. split.
  { rewrite (in_flight_parked this ds' l Hparked'), (in_flight_parked this ds l1 Hparked).
    now apply fmap_sublist. }
  split; [exact Hfail|]. split.
  { intros q err Hq. destruct (decide (q = 0)) as [->|Hne]; [reflexivity|].
    unfold promise in Hq. destruct (Hprom q) as [Hsame|[Hful _]].
    - rewrite Hsame, (Hfresh q Hne) in Hq. discriminate.
    - rewrite Hful in Hq. discriminate. }
  intros i.
  destruct (batch_step env this l ds' i Hparked' ltac:(lia))
    as (ds2 & Hparked2 & _ & Hcase & _).
  rewrite (in_flight_parked this ds2 _ Hparked2), (in_flight_parked this ds' l Hparked').
  destruct Hcase as [->| ->]; [now left|right]. apply list_fmap_delete.
Qed.

(** C4 (amended). In every folder download batch, [downloadAll] itself
    fails only when no destination is chosen, with [CancellationError(user)],
    or when creating the subdirectory fails, with the error [fs.mkdirSync]
    threw. Otherwise every object of the file list is launched, and from then
    on, whatever the order in which the downloads settle: the promise of
    [downloadAll] stays as it is; no callback's promise is rejected (a failure
    is caught); the objects recorded as failed plus the in-flight ones that
    are going to fail are always the same objects (each failure is recorded
    once, when it settles); and a turn takes at most the download that
    settled out of the batch, so a failure aborts no other download. *)
Theorem failures_are_recorded_and_the_batch_goes_on :
  forall (env : Env) (w : World) (this : nat),
    this < length (managers w) ->
    let m := managers w !!! this in
    let l1 := step env (call env w (downloadAll this)) 0 in
    (forall err,
        promise l1 0 = Some (Rejected err) <->
        (chosen_folder env w = None /\ err = CancellationError user)
        \/ (exists saveLocation dir,
              chosen_folder env w = Some saveLocation
              /\ missing_subdirectory env w this saveLocation = Some dir
              /\ mkdir_fault env dir = Some err))
    /\ (promise l1 0 = Some (Fulfilled tt) ->
        fst <$> in_flight l1 = S3DownloadFilesManager.fileList m)
    /\ (forall schedule,
          let l := turns env l1 schedule in
          promise l 0 = promise l1 0
          /\ sublist (in_flight l) (in_flight l1)
          /\ failures env this l ≡ₚ failures env this l1
          /\ (forall q err, promise l q = Some (Rejected err) -> q = 0)
          /\ (forall i, in_flight (step env l i) = in_flight l
                        \/ in_flight (step env l i) = delete i (in_flight l))).
Proof.
  intros env w this Hthis m l1. split; [|split].
  - intros err. subst l1. rewrite downloadAll_promise.
    destruct (chosen_folder env w) as [saveLocation|] eqn:Hchosen.
    + destruct (missing_subdirectory env w this saveLocation) as [dir|] eqn:Hmissing.
      * destruct (mkdir_fault env dir) as [err'|] eqn:Hfault.
        -- split.
           ++ intros [= <-]. right. exists saveLocation, dir. auto.
           ++ intros [[Hnone _]|(s' & dir' & [= <-] & Hdir & Herr)]; [discriminate|].
              rewrite Hmissing in Hdir. injection Hdir as <-. congruence.
        -- split; [discriminate|].
           intros [[Hnone _]|(s' & dir' & [= <-] & Hdir & Herr)]; [discriminate|].
           rewrite Hmissing in Hdir. injection Hdir as <-. congruence.
      * split; [discriminate|].
        intros [[Hnone _]|(s' & dir' & [= <-] & Hdir & _)]; [discriminate|congruence].
    + split.
      * intros [= <-]. now left.
      * intros [[_ ->]|(s' & dir' & Hsome & _)]; [reflexivity|discriminate].
  - intros Hok. destruct (downloadAll_in_flight env w this Hok) as (saveLocation & _ & Hflight).
    subst l1 m. rewrite Hflight. apply fmap_fst_pair.
  - intros schedule. apply downloadAll_turns. exact Hthis.
Qed.

(** With [friendly_env], three objects of which only [file_B] fails. *)
Lemma failures_are_recorded_and_the_batch_goes_on_witness :
  0 < length (managers fresh_world)
  /\ (forall schedule,
        let l1 := step friendly_env (call friendly_env fresh_world (downloadAll 0)) 0 in
        promise (turns friendly_env l1 schedule) 0 = Some (Fulfilled tt)
        /\ failures friendly_env 0 (turns friendly_env l1 schedule) ≡ₚ [file_B]).
Proof.
  split; [cbn; lia|]. intros schedule l1.
  destruct (failures_are_recorded_and_the_batch_goes_on friendly_env fresh_world 0
              ltac:(cbn; lia)) as (_ & _ & Hturns).
  destruct (Hturns schedule) as (Hroot & _ & Hfailures & _).
  subst l1. split.
  - rewrite Hroot. vm_compute. reflexivity.
  - rewrite Hfailures. vm_compute. reflexivity.
Defined.

(** C4 (counterexample). The user chooses [/usr] as destination, where the
    subdirectory [2024] cannot be created: [downloadAll] fails although a
    destination was chosen, and not with a cancellation error. *)
Lemma downloadAll_fails_though_a_destination_is_chosen :
  chosen_folder read_only_env fresh_world = Some (Uri.file "/usr")
  /\ promise (step read_only_env (call read_only_env fresh_world (downloadAll 0)) 0) 0
     = Some (Rejected (SystemError "EACCES" "/usr/2024"))
  /\ SystemError "EACCES" "/usr/2024" <> CancellationError user.
Proof.
  split; [reflexivity|]. split; [vm_compute; reflexivity|discriminate].
Qed.

(** C1 (the code at the failing input). Objects A and C download, B does
    not. Whatever the order in which the three downloads settle, once all
    have settled the failed list is exactly [B] but the counter of
    downloaded objects is still 0, not 2. *)
Theorem batch_accounting_counter_stays_zero :
  download_fails friendly_env
    (file_A, folder_download_options (DefaultS3Client "us-west-2") "/home/user/Downloads/2024/a.txt")
  = false
  /\ download_fails friendly_env
       (file_B, folder_download_options (DefaultS3Client "us-west-2") "/home/user/Downloads/2024/b.txt")
     = true
  /\ download_fails friendly_env
       (file_C, folder_download_options (DefaultS3Client "us-west-2") "/home/user/Downloads/2024/c.txt")
     = false
  /\ Forall (fun order =>
       let l := turns friendly_env (call friendly_env fresh_world (downloadAll 0)) (0 :: order) in
       suspended l = []
       /\ promises l = {[ 0 := Fulfilled tt; 1 := Fulfilled tt; 2 := Fulfilled tt; 3 := Fulfilled tt ]}
       /\ S3DownloadFilesManager.failedToDownload (manager l 0) = [file_B]
       /\ S3DownloadFilesManager.totalDownloaded (manager l 0) = 0) settle_orders.
Proof.
  split; [reflexivity|]. split; [reflexivity|]. split; [reflexivity|].
  repeat constructor; vm_compute; reflexivity.
Qed.

(** The counter is never written: in every environment, for every manager
    and every schedule it keeps the value the constructor gave it. *)
Lemma totalDownloaded_never_changes (env : Env) (w : World) (this : nat)
    (schedule : list nat) :
  this < length (managers w) ->
  S3DownloadFilesManager.totalDownloaded
    (manager (turns env (call env w (downloadAll this)) schedule) this)
  = S3DownloadFilesManager.totalDownloaded (managers w !!! this).
Proof.
  intros Hthis. unfold call.
  destruct (run_totalDownloaded env (downloadAll this) 0
              {| world := w; suspended := []; promises := ∅; next_task := 1 |} this Hthis)
    as [Hlen Heq].
  rewrite turns_totalDownloaded by exact Hlen. exact Heq.
Qed.

(** What does hold of the claimed invariant: the counter plus the failures
    recorded never exceed the number of objects, for a freshly built manager. *)
Lemma accounting_never_exceeds_the_file_list (env : Env) (w : World) (this : nat)
    (schedule : list nat) :
  this < length (managers w) ->
  S3DownloadFilesManager.failedToDownload (managers w !!! this) = [] ->
  S3DownloadFilesManager.totalDownloaded (managers w !!! this) = 0 ->
  let l := turns env (call env w (downloadAll this)) (0 :: schedule) in
  S3DownloadFilesManager.totalDownloaded (manager l this)
  + length (S3DownloadFilesManager.failedToDownload (manager l this))
  <= length (S3DownloadFilesManager.fileList (managers w !!! this)).
Proof.
  intros Hthis Hnone Hzero l.
  assert (Hcount : S3DownloadFilesManager.totalDownloaded (manager l this) = 0)
    by (subst l; rewrite totalDownloaded_never_changes by exact Hthis; exact Hzero).
  rewrite Hcount. cbn [Nat.add].
  destruct (downloadAll_turns env w this schedule Hthis) as (_ & _ & Hfailures & _).
  set (l1 := step env (call env w (downloadAll this)) 0) in *.
  change (turns env l1 schedule) with l in Hfailures.
  apply Permutation_length in Hfailures. unfold failures in Hfailures.
  rewrite !length_app, !length_fmap in Hfailures.
  destruct (downloadAll_batch_state env w this) as (ds & Hparked & _ & Hmgr & _).
  fold l1 in Hparked, Hmgr.
  assert (Hstart : S3DownloadFilesManager.failedToDownload (manager l1 this) = [])
    by (unfold manager; now rewrite Hmgr).
  rewrite Hstart in Hfailures. cbn [length Nat.add] in Hfailures.
  assert (Hbound : length (in_flight l1)
                   <= length (S3DownloadFilesManager.fileList (managers w !!! this))).
  { destruct (promise l1 0) as [[[]|err]|] eqn:Hroot.
    - destruct (downloadAll_in_flight env w this Hroot) as (saveLocation & _ & Hflight).
      fold l1 in Hflight. rewrite Hflight, length_fmap. reflexivity.
    - subst l1. rewrite downloadAll_promise in Hroot.
      unfold call. rewrite downloadAll_after_dialog.
      destruct (chosen_folder env w) as [saveLocation|]; [|cbn; lia].
      destruct (missing_subdirectory env w this saveLocation) as [dir|]; [|discriminate].
      destruct (mkdir_fault env dir); [cbn; lia|discriminate].
    - subst l1. rewrite downloadAll_promise in Hroot.
      destruct (chosen_folder env w) as [saveLocation|]; [|discriminate].
      destruct (missing_subdirectory env w this saveLocation) as [dir|]; [|discriminate].
      destruct (mkdir_fault env dir); discriminate. }
  pose proof (length_filter (fun d => download_fails env d) (in_flight l1)) as Hfilter.
  lia.
Qed.

(** C3 (the code at the failing input). The folder is named [2024] and the
    user chooses [/home/user/Downloads]. The first time the subdirectory is
    created and the objects are saved in it; when it is already there the
    objects are saved directly in the destination root. *)
Theorem downloads_bypass_an_existing_subdirectory :
  destinations (step friendly_env (call friendly_env fresh_world (downloadAll 0)) 0)
    = [Some "/home/user/Downloads/2024/a.txt"; Some "/home/user/Downloads/2024/b.txt";
       Some "/home/user/Downloads/2024/c.txt"]
  /\ dirs (world (step friendly_env (call friendly_env fresh_world (downloadAll 0)) 0))
     = dirs second_time_world
  /\ destinations (step friendly_env (call friendly_env second_time_world (downloadAll 0)) 0)
     = [Some "/home/user/Downloads/a.txt"; Some "/home/user/Downloads/b.txt";
        Some "/home/user/Downloads/c.txt"].
Proof.
  split; [vm_compute; reflexivity|]. split; [|vm_compute; reflexivity].
  apply set_eq. intros x. vm_compute. set_solver.
Qed.

(** The turn in which the listing arrives: [downloadFolderCommand] builds
    the manager, calls [downloadAll], which parks at the folder dialog as
    task 1, and returns. *)
Lemma downloadFolderCommand_after_listing (env : Env) (w : World) (folder : S3FolderNode.t) :
  let l1 := step env (call env w (downloadFolderCommand folder)) 0 in
  match listing_of env (S3FolderNode.s3 folder)
          {| bucketName := Bucket.name (S3FolderNode.bucket folder);
             folderPath := Folder.path (S3FolderNode.folder folder) |} with
  | Fulfilled listing =>
      promises l1 = {[ 0 := Fulfilled tt ]}
      /\ task <$> suspended l1 = [1]
      /\ awaits_dialog <$> suspended l1 = [true]
      /\ next_task l1 = 2
      /\ dirs (world l1) = dirs w
  | Rejected err =>
      promises l1 = {[ 0 := Rejected err ]} /\ suspended l1 = [] /\ next_task l1 = 1
  end.
Proof.
  cbn. destruct (listing_of env (S3FolderNode.s3 folder) _) as [listing|err]; cbn; repeat split.
Qed.

Lemma downloadFolderCommand_promise_stable (env : Env) (w : World) (folder : S3FolderNode.t)
    (schedule : list nat) :
  let l1 := step env (call env w (downloadFolderCommand folder)) 0 in
  promise (turns env l1 schedule) 0 = promise l1 0.
Proof.
  intros l1. pose proof (downloadFolderCommand_after_listing env w folder) as H.
  fold l1 in H. cbv zeta in H.
  destruct (listing_of env (S3FolderNode.s3 folder) _) as [listing|err].
  - destruct H as (_ & Htasks & _ & Hnext & _).
    apply promise_stable; [lia|]. rewrite Hnext.
    destruct (suspended l1) as [|s [|s' rest]]; try discriminate.
    injection Htasks as Hs. constructor; [lia|constructor].
  - destruct H as (_ & Hnone & Hnext).
    apply promise_stable; [lia|]. rewrite Hnone. constructor.
Qed.

(** When [downloadAll] throws, it has launched nothing. *)
Lemma downloadAll_rejected_launches_nothing (env : Env) (w : World) (this : nat) (err : Error) :
  promise (step env (call env w (downloadAll this)) 0) 0 = Some (Rejected err) ->
  in_flight (step env (call env w (downloadAll this)) 0) = [].
Proof.
  rewrite downloadAll_promise. unfold call. rewrite downloadAll_after_dialog.
  destruct (chosen_folder env w) as [saveLocation|]; [|reflexivity].
  destruct (missing_subdirectory env w this saveLocation) as [dir|]; [|discriminate].
  destruct (mkdir_fault env dir); [reflexivity|discriminate].
Qed.

(** C2 (counterexample). The listing of the folder holds one object. When
    the promise of [downloadFolderCommand] is fulfilled, no download has been
    launched: [downloadAll], task 1, is still waiting for the folder dialog.
    The object's download is launched one turn later, when the dialog is
    answered. And when the user dismisses the dialog, the promise of
    [downloadAll] itself settles, for a list of three objects, with no
    download launched at all. *)
Lemma downloadFolderCommand_settles_before_any_launch :
  S3DownloadFilesManager.fileList abc_manager <> []
  /\ promise (step dismissing_env (call dismissing_env fresh_world (downloadAll 0)) 0) 0
     = Some (Rejected (CancellationError user))
  /\ in_flight (step dismissing_env (call dismissing_env fresh_world (downloadAll 0)) 0) = []
  /\ files listing_2024 <> []
  /\ promise (step friendly_env (call friendly_env empty_world (downloadFolderCommand folder_2024)) 0) 0
     = Some (Fulfilled tt)
  /\ in_flight (step friendly_env (call friendly_env empty_world (downloadFolderCommand folder_2024)) 0)
     = []
  /\ awaits_dialog <$>
       suspended (step friendly_env (call friendly_env empty_world (downloadFolderCommand folder_2024)) 0)
     = [true]
  /\ promise (step friendly_env (call friendly_env empty_world (downloadFolderCommand folder_2024)) 0) 1
     = None
  /\ destinations
       (turns friendly_env (call friendly_env empty_world (downloadFolderCommand folder_2024)) [0; 0])
     = [Some "/home/user/Downloads/2024/a.txt"].
Proof.
  split; [discriminate|]. split; [vm_compute; reflexivity|]. split; [vm_compute; reflexivity|].
  split; [discriminate|]. repeat split; vm_compute; reflexivity.
Qed.

(** C2 (amended). For a non-empty file list, the promise of [downloadAll] is
    pending while the folder dialog is open and settles in the turn in which
    the dialog is answered. When it is rejected, nothing has been launched.
    When it is fulfilled, every object's download has just been launched and
    none has settled: nothing has been recorded. No later turn changes the
    promise. The promise of [downloadFolderCommand] is fulfilled earlier
    still, in the turn in which the listing arrives: [downloadAll] has been
    called but is parked at the folder dialog, no download is in flight, and
    no later turn changes that promise either. Neither promise therefore
    marks a point at which the per-object attempts have settled. *)
Theorem downloads_are_never_awaited :
  forall (env : Env) (w : World) (this : nat) (folder : S3FolderNode.t)
         (listing : ListFilesResponse),
    this < length (managers w) ->
    S3DownloadFilesManager.fileList (managers w !!! this) <> [] ->
    listing_of env (S3FolderNode.s3 folder)
      {| bucketName := Bucket.name (S3FolderNode.bucket folder);
         folderPath := Folder.path (S3FolderNode.folder folder) |} = Fulfilled listing ->
    let m := managers w !!! this in
    let a0 := call env w (downloadAll this) in
    let a1 := step env a0 0 in
    let c0 := call env w (downloadFolderCommand folder) in
    let c1 := step env c0 0 in
    promise a0 0 = None
    /\ (promise a1 0 = Some (Fulfilled tt) ->
        fst <$> in_flight a1 = S3DownloadFilesManager.fileList m
        /\ in_flight a1 <> []
        /\ (forall q, q <> 0 -> promise a1 q = None)
        /\ manager a1 this = m)
    /\ (forall err, promise a1 0 = Some (Rejected err) -> in_flight a1 = [])
    /\ is_Some (promise a1 0)
    /\ (forall schedule, promise (turns env a1 schedule) 0 = promise a1 0)
    /\ promise c0 0 = None
    /\ promise c1 0 = Some (Fulfilled tt)
    /\ in_flight c1 = []
    /\ awaits_dialog <$> suspended c1 = [true]
    /\ promise c1 1 = None
    /\ (forall schedule, promise (turns env c1 schedule) 0 = Some (Fulfilled tt)).
Proof.
  intros env w this folder listing Hthis Hfiles Hlisting m a0 a1 c0 c1.
  split; [reflexivity|]. split.
  - intros Hok.
    destruct (downloadAll_in_flight env w this Hok) as (saveLocation & _ & Hflight).
    destruct (downloadAll_batch_state env w this) as (ds & _ & _ & Hmgr & Hfresh).
    fold a0 a1 in Hflight, Hmgr, Hfresh.
    assert (Hall : fst <$> in_flight a1 = S3DownloadFilesManager.fileList m)
      by (rewrite Hflight; apply fmap_fst_pair).
    split; [exact Hall|]. split.
    + intros Hnone. rewrite Hnone in Hall. now apply Hfiles.
    + split; [exact Hfresh|]. unfold manager. now rewrite Hmgr.
  - split; [intros err; apply downloadAll_rejected_launches_nothing|].
    split.
    { subst a1 a0. rewrite downloadAll_promise.
      destruct (chosen_folder env w) as [saveLocation|]; [|eauto].
      destruct (missing_subdirectory env w this saveLocation) as [dir|]; [|eauto].
      destruct (mkdir_fault env dir); eauto. }
    split; [intros schedule; now apply downloadAll_turns|].
    pose proof (downloadFolderCommand_after_listing env w folder) as H.
    cbv zeta in H. fold c0 c1 in H. rewrite Hlisting in H.
    destruct H as (Hpromises & Htasks & Hdialog & Hnext & _).
    assert (Hroot : promise c1 0 = Some (Fulfilled tt))
      by (unfold promise; now rewrite Hpromises).
    split; [reflexivity|]. split; [exact Hroot|]. split.
    + unfold in_flight, awaits_dialog in *.
      destruct (suspended c1) as [|s [|s' rest]]; try discriminate.
      cbn in *. now destruct (awaiting s).
    + split; [exact Hdialog|]. split.
      * unfold promise. now rewrite Hpromises.
      * intros schedule. rewrite <- Hroot. apply downloadFolderCommand_promise_stable.
Qed.

(** With [friendly_env]: the manager of the three objects, and the folder
    whose listing holds one object. *)
Lemma downloads_are_never_awaited_witness :
  let a1 := step friendly_env (call friendly_env fresh_world (downloadAll 0)) 0 in
  let c1 := step friendly_env (call friendly_env fresh_world (downloadFolderCommand folder_2024)) 0 in
  (0 < length (managers fresh_world)
   /\ S3DownloadFilesManager.fileList (managers fresh_world !!! 0) <> []
   /\ listing_of friendly_env (S3FolderNode.s3 folder_2024)
        {| bucketName := "reports"; folderPath := "2024/" |} = Fulfilled listing_2024)
  /\ (forall schedule, promise (turns friendly_env a1 schedule) 0 = promise a1 0)
  /\ (forall schedule, promise (turns friendly_env c1 schedule) 0 = Some (Fulfilled tt))
  /\ in_flight c1 = [].
Proof.
  intros a1 c1.
  assert (H0 : 0 < length (managers fresh_world)) by (cbn; lia).
  assert (H1 : S3DownloadFilesManager.fileList (managers fresh_world !!! 0) <> [])
    by discriminate.
  assert (H2 : listing_of friendly_env (S3FolderNode.s3 folder_2024)
                 {| bucketName := Bucket.name (S3FolderNode.bucket folder_2024);
                    folderPath := Folder.path (S3FolderNode.folder folder_2024) |}
               = Fulfilled listing_2024) by reflexivity.
  split; [repeat split; assumption|].
  destruct (downloads_are_never_awaited friendly_env fresh_world 0 folder_2024 listing_2024
              H0 H1 H2) as (_ & _ & _ & _ & Ha & _ & _ & Hc & _ & _ & Hcs).
  split; [exact Ha|]. split; [exact Hcs|exact Hc].
Defined.

(** ** The sidecar environment client *)

(** Whatever endpoint the client was built with, each method makes one
    request: to that endpoint followed by the method's path. *)
Lemma sidecar_requests (c : DefaultMdeEnvironmentClient) (start : StartDevfileRequest.t)
    (create : CreateDevfileRequest.t) :
  (exists k, startDevfile c start
             = Await (got unknown POST (endpoint c +:+ "/start")
                        {| json := Some (json_StartDevfileRequest start);
                           responseType := "json" |}) k
             /\ (forall response, k (Fulfilled response) = Ret tt)
             /\ (forall err, k (Rejected err) = Throw err))
  /\ (exists k, createDevfile c create
                = Await (got CreateDevfileResponse.t POST (endpoint c +:+ "/devfile/create")
                           {| json := Some (json_CreateDevfileRequest create);
                              responseType := "json" |}) k
                /\ (forall response, k (Fulfilled response) = Ret (body response))
                /\ (forall err, k (Rejected err) = Throw err))
  /\ (exists k, getStatus c
                = Await (got GetStatusResponse.t GET (endpoint c +:+ "/status")
                           {| json := None; responseType := "json" |}) k
                /\ (forall response, k (Fulfilled response) = Ret (body response))
                /\ (forall err, k (Rejected err) = Throw err)).
Proof.
  repeat split; eexists; (split; [reflexivity|]); split; reflexivity.
Qed.

(** C9. The client built without an endpoint argument talks to the fixed
    loopback endpoint [http://127.0.0.1:1339]. [startDevfile] makes one
    request, a POST of the request object ([{location, recreateHomeVolumes}])
    as JSON to [/start], and returns nothing; [createDevfile] makes one
    request, a POST of the request object ([{path}]) as JSON to
    [/devfile/create], and returns the response body, of shape [{location}];
    [getStatus] makes one request, a GET of [/status], and returns the
    response body, of shape [{actionId, message, status}], whose status is one
    of PENDING, STABLE, CHANGED. *)
Theorem sidecar_client_targets_the_three_endpoints :
  forall (location path : option string) (recreateHomeVolumes : option bool),
    let c := DefaultMdeEnvironmentClient_new None in
    let start := {| StartDevfileRequest.location := location;
                    StartDevfileRequest.recreateHomeVolumes := recreateHomeVolumes |} in
    let create := {| CreateDevfileRequest.path := path |} in
    (exists k, startDevfile c start
               = Await (got unknown POST "http://127.0.0.1:1339/start"
                          {| json := Some (json_StartDevfileRequest start);
                             responseType := "json" |}) k
               /\ (forall response, k (Fulfilled response) = Ret tt)
               /\ (forall err, k (Rejected err) = Throw err))
    /\ (exists k, createDevfile c create
                  = Await (got CreateDevfileResponse.t POST "http://127.0.0.1:1339/devfile/create"
                             {| json := Some (json_CreateDevfileRequest create);
                                responseType := "json" |}) k
                  /\ (forall created : option string,
                        k (Fulfilled {| body := {| CreateDevfileResponse.location := created |} |})
                        = Ret {| CreateDevfileResponse.location := created |})
                  /\ (forall err, k (Rejected err) = Throw err))
    /\ (exists k, getStatus c
                  = Await (got GetStatusResponse.t GET "http://127.0.0.1:1339/status"
                             {| json := None; responseType := "json" |}) k
                  /\ (forall (actionId message : option string) (status : option Status),
                        k (Fulfilled {| body := {| GetStatusResponse.actionId := actionId;
                                                   GetStatusResponse.message := message;
                                                   GetStatusResponse.status := status |} |})
                        = Ret {| GetStatusResponse.actionId := actionId;
                                 GetStatusResponse.message := message;
                                 GetStatusResponse.status := status |})
                  /\ (forall err, k (Rejected err) = Throw err))
    /\ (forall status : Status, status = PENDING \/ status = STABLE \/ status = CHANGED).
Proof.
  intros location path recreateHomeVolumes c start create. repeat split.
  - eexists. split; [reflexivity|]. split; reflexivity.
  - eexists. split; [reflexivity|]. split; reflexivity.
  - eexists. split; [reflexivity|]. split; reflexivity.
  - intros []; auto.
Qed.

(** ** The environment's ARN *)

Lemma truthy_spec (s : string) : truthy s = true <-> s <> "".
Proof.
  unfold truthy. rewrite negb_true_iff. apply String.eqb_neq.
Qed.

(** C10. [getEnvArn] returns [undefined] exactly when the variable
    [__ENVIRONMENT_ARN] is unset or the empty string and the variable's value
    otherwise, whereas the getter [arn] of the client returns the raw value of
    the same variable; for the empty string the former reports no ARN and the
    latter returns the empty string. *)
Theorem getEnvArn_reports_empty_as_absent :
  forall (process_env : gmap string string) (c : DefaultMdeEnvironmentClient),
    (getEnvArn process_env = None <->
       process_env !! "__ENVIRONMENT_ARN" = None
       \/ process_env !! "__ENVIRONMENT_ARN" = Some "")
    /\ (forall value, process_env !! "__ENVIRONMENT_ARN" = Some value -> value <> "" ->
          getEnvArn process_env = Some value)
    /\ arn c process_env = process_env !! "__ENVIRONMENT_ARN"
    /\ getEnvArn (<["__ENVIRONMENT_ARN" := ""]> process_env) = None
    /\ arn c (<["__ENVIRONMENT_ARN" := ""]> process_env) = Some "".
Proof.
  intros process_env c. unfold getEnvArn, arn, ENVIRONMENT_ARN_KEY.
  split; [|split; [|split; [|split]]].
  - destruct (process_env !! "__ENVIRONMENT_ARN") as [value|] eqn:Hvar; [|tauto].
    destruct (truthy value) eqn:Htruthy.
    + apply truthy_spec in Htruthy. split; [discriminate|].
      intros [Hnone|[= Hempty]]; [discriminate|contradiction].
    + split; [|reflexivity]. intros _. right. f_equal.
      destruct (decide (value = "")) as [->|Hne]; [reflexivity|].
      apply truthy_spec in Hne. congruence.
  - intros value -> Hne. apply truthy_spec in Hne. now rewrite Hne.
  - reflexivity.
  - now rewrite lookup_insert_eq.
  - now rewrite lookup_insert_eq.
Qed.

(* ===================================================================== *)
(** * Part II, continued: the rest of the two files *)
(* ===================================================================== *)

(** ** One download: cancellation, finality, mode *)











Lemma dispatch_collects_buffer (t : Transfer) (ev : StreamEvent) :
  collects_buffer (sink (dispatch t ev)) = collects_buffer (sink t).
Proof.
  unfold dispatch, destroy. destruct (state t); [|reflexivity|reflexivity].
  destruct ev; cbn; try reflexivity.
  - now destruct (sink t).
  - now destruct (onTimeoutCancel t).
  - now destruct (onProgressCancel t).
Qed.

Lemma foldl_dispatch_collects_buffer (evs : list StreamEvent) (t : Transfer) :
  collects_buffer (sink (foldl dispatch t evs)) = collects_buffer (sink t).
Proof.
  revert t. induction evs as [|ev evs IH]; intros t; [reflexivity|].
  cbn [foldl]. rewrite IH. apply dispatch_collects_buffer.
Qed.

Lemma downloadS3File_fulfilled_value (store : Store) (c : S3Client) (file : S3File)
    (options : option DownloadFileOptions) (v : option Buffer) :
  downloadS3File store c file options = Some (Fulfilled v) ->
  is_Some v <-> options ≫= saveLocation = None.
Proof.
  unfold downloadS3File.
  destruct (downloadFileStream store c _ _) as [downloadStream|err]; [|discriminate].
  pose proof (foldl_dispatch_collects_buffer (timeline store downloadStream) (wire file options))
    as Hkind.
  unfold settled.
  destruct (state (foldl dispatch (wire file options) (timeline store downloadStream)));
    [discriminate| |discriminate].
  intros [= <-]. revert Hkind. unfold wire. cbn.
  destruct (options ≫= saveLocation) as [location|];
    destruct (sink (foldl dispatch _ _)) as [writer|destination written]; cbn;
    try discriminate; intros _.
  - split; [intros [x Hx]; discriminate|discriminate].
  - split; [reflexivity|eauto].
Qed.

(** X3. Whatever the stream does, a download that is fulfilled resolves to a
    buffer exactly when no [saveLocation] was given: with a [saveLocation]
    the promise of [downloadFile] never resolves into a buffer. *)
Theorem download_resolves_to_a_buffer_only_without_save_location :
  forall (store : Store) (file : S3File) (options : option DownloadFileOptions)
         (v : option Buffer),
    downloadFile store file options = Some (Fulfilled v) ->
    is_Some v <-> options ≫= saveLocation = None.
Proof.
  intros store file options v. unfold downloadFile.
  destruct (downloadS3File store _ file options) as [[v'|err]|] eqn:Hresult;
    cbn; try discriminate.
  intros [= <-]. eapply downloadS3File_fulfilled_value. exact Hresult.
Qed.

(** The same object downloaded into a file and into memory. *)
Lemma download_resolves_to_a_buffer_only_without_save_location_witness :
  downloadFile abc_store file_A
    (Some (folder_download_options (DefaultS3Client "us-west-2") "/tmp/a.txt"))
  = Some (Fulfilled None)
  /\ (is_Some (@None Buffer)
      <-> Some (folder_download_options (DefaultS3Client "us-west-2") "/tmp/a.txt")
            ≫= saveLocation = None)
  /\ downloadFile abc_store file_A None = Some (Fulfilled (Some [Byte.x61; Byte.x62; Byte.x63]))
  /\ (is_Some (Some [Byte.x61; Byte.x62; Byte.x63]) <-> @None DownloadFileOptions ≫= saveLocation = None).
Proof.
  split; [reflexivity|]. split.
  - apply (download_resolves_to_a_buffer_only_without_save_location abc_store file_A
             (Some (folder_download_options (DefaultS3Client "us-west-2") "/tmp/a.txt")) None).
    reflexivity.
  - split; [reflexivity|].
    apply (download_resolves_to_a_buffer_only_without_save_location abc_store file_A None).
    reflexivity.
Defined.







(** ** The folder manager, continued *)

Lemma turns_idle (env : Env) (l : Loop) (schedule : list nat) :
  suspended l = [] -> turns env l schedule = l.
Proof.
  intros Hnone. induction schedule as [|i schedule IH]; [reflexivity|].
  cbn [turns foldl]. fold (turns env (step env l i) schedule).
  assert (Hstep : step env l i = l) by (unfold step; now rewrite Hnone).
  now rewrite Hstep.
Qed.

(** A turn on a batch of parked downloads leaves a batch of parked
    downloads, touches no directory, and adds at most the object whose
    download settled to the end of the manager's failed list. *)
Lemma parked_step (env : Env) (this : nat) (l : Loop)
    (ds : list (nat * S3File * DownloadFileOptions)) (i : nat) :
  suspended l = parked_download this <$> ds ->
  exists ds',
    suspended (step env l i) = parked_download this <$> ds'
    /\ (ds' = ds \/ ds' = delete i ds)
    /\ dirs (world (step env l i)) = dirs (world l)
    /\ exists more, recorded (step env l i) this = recorded l this ++ more.
Proof.
  intros Hparked. unfold recorded, manager.
  destruct (ds !! i) as [d|] eqn:Hi.
  2:{ exists ds. unfold step. rewrite Hparked, list_lookup_fmap, Hi. cbn.
      rewrite Hparked. split; [reflexivity|]. split; [now left|]. split; [reflexivity|].
      exists []. now rewrite app_nil_r. }
  assert (Hlookup : suspended l !! i = Some (parked_download this d))
    by now rewrite Hparked, list_lookup_fmap, Hi.
  rewrite (step_parked_download env this l i d Hlookup).
  assert (Hrest : suspended (unpark i l) = parked_download this <$> delete i ds)
    by (cbn; now rewrite Hparked, list_fmap_delete).
  destruct (downloadFile (store env) d.1.2 (Some d.2)) as [[v|err]|].
  - exists (delete i ds). split; [exact Hrest|]. split; [now right|]. split; [reflexivity|].
    exists []. now rewrite app_nil_r.
  - exists (delete i ds). split; [exact Hrest|]. split; [now right|]. split; [reflexivity|].
    cbn. rewrite list_lookup_total_alter. case_decide as Hthis.
    + exists [d.1.2]. reflexivity.
    + exists []. now rewrite app_nil_r.
  - exists ds. split; [exact Hparked|]. split; [now left|]. split; [reflexivity|].
    exists []. now rewrite app_nil_r.
Qed.

Lemma parked_turns (env : Env) (this : nat) (schedule : list nat) :
  forall (l : Loop) (ds : list (nat * S3File * DownloadFileOptions)),
    suspended l = parked_download this <$> ds ->
    exists ds',
      suspended (turns env l schedule) = parked_download this <$> ds'
      /\ sublist ds' ds
      /\ dirs (world (turns env l schedule)) = dirs (world l)
      /\ exists more, recorded (turns env l schedule) this = recorded l this ++ more.
Proof.
  induction schedule as [|i schedule IH]; intros l ds Hparked.
  - exists ds. split; [exact Hparked|]. split; [reflexivity|]. split; [reflexivity|].
    exists []. now rewrite app_nil_r.
  - cbn [turns foldl]. fold (turns env (step env l i) schedule).
    destruct (parked_step env this l ds i Hparked)
      as (ds1 & Hparked1 & Hcase & Hdirs1 & more1 & Hmore1).
    destruct (IH (step env l i) ds1 Hparked1) as (ds' & Hparked' & Hsub & Hdirs' & more & Hmore).
    exists ds'. split; [exact Hparked'|]. split.
    { transitivity ds1; [exact Hsub|]. destruct Hcase as [->| ->]; [reflexivity|].
      apply sublist_delete. }
    split; [congruence|].
    exists (more1 ++ more). rewrite Hmore, Hmore1. now rewrite app_assoc.
Qed.

(** Before the folder dialog is answered nothing can happen but its answer. *)
Lemma turns_from_call (env : Env) (w : World) (this : nat) (schedule : list nat) :
  let l0 := call env w (downloadAll this) in
  turns env l0 schedule = l0
  \/ exists rest, turns env l0 schedule = turns env (step env l0 0) rest.
Proof.
  intros l0. induction schedule as [|i schedule IH]; [now left|].
  cbn [turns foldl]. fold (turns env (step env l0 i) schedule).
  destruct i as [|i]; [right; now exists schedule|].
  assert (Hstep : step env l0 (S i) = l0) by reflexivity.
  now rewrite Hstep.
Qed.

(** The loop once the folder dialog has been answered. *)
Lemma downloadAll_answered (env : Env) (w : World) (this : nat) :
  let l1 := step env (call env w (downloadAll this)) 0 in
  (exists ds, suspended l1 = parked_download this <$> ds)
  /\ managers (world l1) = managers w
  /\ (dirs (world l1) = dirs w
      \/ exists saveLocation dir,
           chosen_folder env w = Some saveLocation
           /\ missing_subdirectory env w this saveLocation = Some dir
           /\ mkdir_fault env dir = None
           /\ dirs (world l1) = {[dir]} ∪ dirs w).
Proof.
  cbv zeta. unfold call. rewrite downloadAll_after_dialog.
  destruct (chosen_folder env w) as [saveLocation|]; [|split; [now exists []|now split; [|left]]].
  destruct (missing_subdirectory env w this saveLocation) as [dir|] eqn:Hmissing.
  - destruct (mkdir_fault env dir) eqn:Hfault; [split; [now exists []|now split; [|left]]|].
    split; [eexists; reflexivity|]. split; [reflexivity|].
    right. exists saveLocation, dir. auto.
  - split; [eexists; reflexivity|]. split; [reflexivity|now left].
Qed.

(** X6. When [downloadAll] fails (the folder dialog is dismissed, or the
    subdirectory cannot be created) it leaves no trace: no directory has been
    created, no manager has changed, no task is left waiting, and no later
    turn of the event loop does anything. *)
Theorem failed_downloadAll_leaves_no_trace :
  forall (env : Env) (w : World) (this : nat) (err : Error),
    promise (step env (call env w (downloadAll this)) 0) 0 = Some (Rejected err) ->
    world (step env (call env w (downloadAll this)) 0) = w
    /\ suspended (step env (call env w (downloadAll this)) 0) = []
    /\ (forall schedule,
          turns env (step env (call env w (downloadAll this)) 0) schedule
          = step env (call env w (downloadAll this)) 0).
Proof.
  intros env w this err. rewrite downloadAll_promise.
  assert (Hquiet : forall l : Loop, suspended l = [] ->
            suspended l = [] /\ forall schedule, turns env l schedule = l)
    by (intros l Hl; split; [exact Hl|intros schedule; now apply turns_idle]).
  unfold call. rewrite downloadAll_after_dialog.
  destruct (chosen_folder env w) as [saveLocation|].
  - destruct (missing_subdirectory env w this saveLocation) as [dir|]; [|discriminate].
    destruct (mkdir_fault env dir); [|discriminate].
    intros _. split; [reflexivity|]. now apply Hquiet.
  - intros _. split; [reflexivity|]. now apply Hquiet.
Qed.

(** The destination [/usr] is read-only: the subdirectory is not created. *)
Lemma failed_downloadAll_leaves_no_trace_witness :
  promise (step read_only_env (call read_only_env fresh_world (downloadAll 0)) 0) 0
    = Some (Rejected (SystemError "EACCES" "/usr/2024"))
  /\ world (step read_only_env (call read_only_env fresh_world (downloadAll 0)) 0) = fresh_world
  /\ suspended (step read_only_env (call read_only_env fresh_world (downloadAll 0)) 0) = [].
Proof.
  assert (Hfails : promise (step read_only_env (call read_only_env fresh_world (downloadAll 0)) 0) 0
                   = Some (Rejected (SystemError "EACCES" "/usr/2024")))
    by (vm_compute; reflexivity).
  split; [exact Hfails|].
  destruct (failed_downloadAll_leaves_no_trace read_only_env fresh_world 0 _ Hfails)
    as (Hworld & Hnone & _).
  split; [exact Hworld|exact Hnone].
Defined.

(** X7. Whatever happens and in whatever order, [downloadAll] creates at
    most one directory: the one named after the folder under the destination
    the user chose, and only if it did not exist; nothing else in the file
    system's directories changes. *)
Theorem downloadAll_creates_at_most_the_subdirectory :
  forall (env : Env) (w : World) (this : nat) (schedule : list nat),
    let l := turns env (call env w (downloadAll this)) schedule in
    dirs (world l) = dirs w
    \/ exists saveLocation dir,
         chosen_folder env w = Some saveLocation
         /\ missing_subdirectory env w this saveLocation = Some dir
         /\ (dir ∉ dirs w)
         /\ dirs (world l) = {[dir]} ∪ dirs w.
Proof.
  intros env w this schedule l. subst l.
  destruct (turns_from_call env w this schedule) as [->|[rest ->]]; [now left|].
  destruct (downloadAll_answered env w this) as ([ds Hparked] & _ & Hdirs).
  destruct (parked_turns env this rest _ ds Hparked) as (_ & _ & _ & -> & _).
  destruct Hdirs as [Hsame|(saveLocation & dir & Hchosen & Hmissing & _ & Hmade)]; [now left|].
  right. exists saveLocation, dir. split; [exact Hchosen|]. split; [exact Hmissing|].
  split; [|exact Hmade].
  unfold missing_subdirectory in Hmissing.
  destruct (S3DownloadFilesManager.folderName (managers w !!! this)) as [folder|]; [|discriminate].
  destruct (truthy folder); [|discriminate]. cbn in Hmissing.
  destruct (bool_decide (join env (Uri.fsPath saveLocation) folder ∈ dirs w)) eqn:Hthere;
    [discriminate|].
  injection Hmissing as <-. eapply bool_decide_eq_false_1. exact Hthere.
Qed.

(** X8. The failed list only grows, and only at its end: whatever has been
    recorded after some turns is still there, in the same order, after any
    further turns. *)
Theorem failed_list_only_grows :
  forall (env : Env) (w : World) (this : nat) (sooner later : list nat),
    recorded (turns env (call env w (downloadAll this)) sooner) this
    `prefix_of` recorded (turns env (call env w (downloadAll this)) (sooner ++ later)) this.
Proof.
  intros env w this sooner later.
  unfold turns at 2. rewrite foldl_app. fold (turns env (call env w (downloadAll this)) sooner).
  fold (turns env (turns env (call env w (downloadAll this)) sooner) later).
  destruct (downloadAll_answered env w this) as ([ds Hparked] & Hmanagers & _).
  set (l0 := call env w (downloadAll this)) in *.
  set (l1 := step env l0 0) in *.
  assert (Hsame : recorded l1 this = recorded l0 this)
    by (unfold recorded, manager; now rewrite Hmanagers).
  destruct (turns_from_call env w this sooner) as [Hsooner|[rest Hsooner]];
    fold l0 in Hsooner; fold l1 in Hsooner; rewrite Hsooner.
  - destruct (turns_from_call env w this later) as [Hlater|[rest Hlater]];
      fold l0 in Hlater; fold l1 in Hlater; rewrite Hlater; [reflexivity|].
    destruct (parked_turns env this rest l1 ds Hparked) as (_ & _ & _ & _ & more & ->).
    rewrite Hsame. now apply prefix_app_r.
  - destruct (parked_turns env this rest l1 ds Hparked) as (ds' & Hparked' & _).
    destruct (parked_turns env this later _ ds' Hparked') as (_ & _ & _ & _ & more & ->).
    now apply prefix_app_r.
Qed.

(** X9. A folder without objects: [downloadAll] still asks for the
    destination, still creates the subdirectory named after the folder, and
    then is fulfilled with no download started; no later turn does anything. *)
Theorem downloadAll_of_an_empty_folder :
  forall (env : Env) (w : World) (this : nat),
    S3DownloadFilesManager.fileList (managers w !!! this) = [] ->
    let l0 := call env w (downloadAll this) in
    let l1 := step env l0 0 in
    awaits_dialog <$> suspended l0 = [true]
    /\ suspended l1 = []
    /\ (forall schedule, turns env l1 schedule = l1)
    /\ (forall saveLocation dir,
          chosen_folder env w = Some saveLocation ->
          missing_subdirectory env w this saveLocation = Some dir ->
          mkdir_fault env dir = None ->
          promise l1 0 = Some (Fulfilled tt) /\ dirs (world l1) = {[dir]} ∪ dirs w).
Proof.
  intros env w this Hempty l0 l1. split; [reflexivity|].
  assert (Hnone : suspended l1 = []).
  { subst l1 l0. unfold call. rewrite downloadAll_after_dialog.
    destruct (chosen_folder env w) as [saveLocation|]; [|reflexivity].
    destruct (missing_subdirectory env w this saveLocation) as [dir|].
    - destruct (mkdir_fault env dir); [reflexivity|]. cbn. now rewrite Hempty.
    - cbn. now rewrite Hempty. }
  split; [exact Hnone|]. split; [intros schedule; now apply turns_idle|].
  intros saveLocation dir Hchosen Hmissing Hfault. subst l1 l0. split.
  - now rewrite downloadAll_promise, Hchosen, Hmissing, Hfault.
  - unfold call. now rewrite downloadAll_after_dialog, Hchosen, Hmissing, Hfault.
Qed.

Lemma downloadAll_of_an_empty_folder_witness :
  S3DownloadFilesManager.fileList (managers idle_world !!! 0) = []
  /\ suspended (step friendly_env (call friendly_env idle_world (downloadAll 0)) 0) = []
  /\ promise (step friendly_env (call friendly_env idle_world (downloadAll 0)) 0) 0
     = Some (Fulfilled tt)
  /\ dirs (world (step friendly_env (call friendly_env idle_world (downloadAll 0)) 0))
     = {["/home/user/Downloads/2024"]} ∪ dirs idle_world.
Proof.
  split; [reflexivity|].
  destruct (downloadAll_of_an_empty_folder friendly_env idle_world 0 eq_refl)
    as (_ & Hnone & _ & Hmade).
  split; [exact Hnone|].
  apply (Hmade (Uri.file downloads_dir) "/home/user/Downloads/2024");
    [reflexivity|vm_compute; reflexivity|reflexivity].
Defined.








Lemma filter_batch_jobs (env : Env) (c : S3Client) (savePath : string)
    (files_ : list S3File) :
  fst <$> filter (fun d => download_fails env d) (batch_job env c savePath <$> files_)
  = filter (fun file => download_fails env (batch_job env c savePath file)) files_.
Proof.
  induction files_ as [|file rest IH]; [reflexivity|].
  rewrite fmap_cons.
  destruct (download_fails env (batch_job env c savePath file)) eqn:Hfails.
  - rewrite !filter_cons_True by now rewrite Hfails. cbn. now rewrite IH.
  - rewrite !filter_cons_False by now rewrite Hfails. exact IH.
Qed.

(** X11. When the batch has settled, the failed list is right: for a fresh
    manager, once [downloadAll] has started the downloads and none is in
    flight any more, in whatever order they settled, the objects recorded as
    failed are exactly the objects of the file list whose download was
    rejected, each as often as it is listed. *)
Theorem settled_batch_records_exactly_the_failures :
  forall (env : Env) (w : World) (this : nat) (schedule : list nat),
    this < length (managers w) ->
    S3DownloadFilesManager.failedToDownload (managers w !!! this) = [] ->
    let l1 := step env (call env w (downloadAll this)) 0 in
    let l := turns env l1 schedule in
    promise l1 0 = Some (Fulfilled tt) ->
    in_flight l = [] ->
    exists saveLocation,
      chosen_folder env w = Some saveLocation
      /\ recorded l this
         ≡ₚ filter (fun file =>
                      download_fails env
                        (batch_job env (S3DownloadFilesManager.client (managers w !!! this))
                           (default (Uri.fsPath saveLocation)
                              (missing_subdirectory env w this saveLocation)) file))
              (S3DownloadFilesManager.fileList (managers w !!! this)).
Proof.
  intros env w this schedule Hthis Hfresh l1 l Hstarted Hsettled.
  destruct (downloadAll_in_flight env w this Hstarted) as (saveLocation & Hchosen & Hflight).
  fold l1 in Hflight.
  destruct (downloadAll_turns env w this schedule Hthis) as (_ & _ & Hfailures & _).
  fold l1 in Hfailures. fold l in Hfailures.
  destruct (downloadAll_batch_state env w this) as (ds & _ & _ & Hmanagers & _).
  fold l1 in Hmanagers.
  exists saveLocation. split; [exact Hchosen|].
  unfold failures in Hfailures. rewrite Hsettled in Hfailures.
  rewrite filter_nil, fmap_nil, app_nil_r in Hfailures.
  unfold recorded. rewrite Hfailures. unfold manager. rewrite Hmanagers, Hfresh, app_nil_l.
  rewrite Hflight. apply reflexive_eq, filter_batch_jobs.
Qed.

(** The three objects of [fresh_world]: only [file_B] cannot be read. *)
Lemma settled_batch_records_exactly_the_failures_witness :
  0 < length (managers fresh_world)
  /\ in_flight (turns friendly_env (call friendly_env fresh_world (downloadAll 0)) [0; 2; 1; 0])
     = []
  /\ recorded (turns friendly_env (call friendly_env fresh_world (downloadAll 0)) [0; 2; 1; 0]) 0
     ≡ₚ [file_B].
Proof.
  split; [cbn; lia|]. split; [vm_compute; reflexivity|].
  destruct (settled_batch_records_exactly_the_failures friendly_env fresh_world 0 [2; 1; 0]
              ltac:(cbn; lia) eq_refl ltac:(vm_compute; reflexivity)
              ltac:(vm_compute; reflexivity)) as (saveLocation & Hchosen & Hrecorded).
  injection Hchosen as <-. etransitivity; [exact Hrecorded|].
  apply reflexive_eq. vm_compute. reflexivity.
Defined.

Lemma parked_settle_in_order (env : Env) (this : nat)
    (ds : list (nat * S3File * DownloadFileOptions)) :
  forall l : Loop,
    suspended l = parked_download this <$> ds ->
    Forall (fun d => is_Some (downloadFile (store env) d.1.2 (Some d.2))) ds ->
    suspended (turns env l (replicate (length ds) 0)) = [].
Proof.
  induction ds as [|d ds IH]; intros l Hparked Hsettle; [exact Hparked|].
  cbn [length replicate turns foldl]. fold (turns env (step env l 0) (replicate (length ds) 0)).
  apply Forall_cons in Hsettle as [[o Ho] Hrest].
  apply IH; [|exact Hrest].
  assert (Hlookup : suspended l !! 0 = Some (parked_download this d)) by now rewrite Hparked.
  rewrite (step_parked_download env this l 0 d Hlookup), Ho.
  destruct o as [v|err]; cbn; now rewrite Hparked.
Qed.

(** X12. The batch does settle: when the folder dialog has been answered and
    every download that was started settles, one turn per object is enough
    for no download to be in flight and no task to be left waiting. *)
Theorem batch_settles_after_one_turn_per_object :
  forall (env : Env) (w : World) (this : nat),
    let l1 := step env (call env w (downloadAll this)) 0 in
    Forall (fun d => is_Some (downloadFile (store env) d.1 (Some d.2))) (in_flight l1) ->
    let l := turns env l1 (replicate (length (in_flight l1)) 0) in
    suspended l = [] /\ in_flight l = [].
Proof.
  intros env w this l1 Hsettle l.
  destruct (downloadAll_answered env w this) as ([ds Hparked] & _).
  fold l1 in Hparked.
  rewrite (in_flight_parked this ds l1 Hparked) in Hsettle.
  assert (Hnone : suspended l = []).
  { subst l. rewrite (in_flight_parked this ds l1 Hparked), length_fmap.
    apply (parked_settle_in_order env this ds l1 Hparked).
    rewrite Forall_fmap in Hsettle. exact Hsettle. }
  split; [exact Hnone|]. unfold in_flight. now rewrite Hnone.
Qed.

Lemma batch_settles_after_one_turn_per_object_witness :
  length (in_flight (step friendly_env (call friendly_env fresh_world (downloadAll 0)) 0)) = 3
  /\ suspended (turns friendly_env (step friendly_env (call friendly_env fresh_world (downloadAll 0)) 0)
                  [0; 0; 0]) = [].
Proof.
  split; [vm_compute; reflexivity|].
  destruct (batch_settles_after_one_turn_per_object friendly_env fresh_world 0) as [Hnone _].
  - vm_compute. repeat constructor; eexists; reflexivity.
  - exact Hnone.
Defined.

(** ** [downloadFolderCommand], continued *)

(** X13. When the listing of the folder fails, [downloadFolderCommand] is
    rejected with the error of [listFiles] itself, not wrapped; no manager is
    created, no dialog is opened, nothing is left waiting, and no later turn
    does anything. *)
Theorem downloadFolderCommand_passes_a_listing_failure_on :
  forall (env : Env) (w : World) (folder : S3FolderNode.t) (err : Error),
    listing_of env (S3FolderNode.s3 folder) (listing_request folder) = Rejected err ->
    let l1 := step env (call env w (downloadFolderCommand folder)) 0 in
    promise l1 0 = Some (Rejected err)
    /\ world l1 = w
    /\ suspended l1 = []
    /\ (forall schedule, turns env l1 schedule = l1).
Proof.
  intros env w folder err Hlisting l1.
  assert (Hl1 : l1 = thrown 0 w ∅ 1 err).
  { subst l1. unfold call, step, thrown. cbn. unfold listing_request in Hlisting.
    rewrite Hlisting. reflexivity. }
  rewrite Hl1. split; [apply lookup_insert_eq|]. split; [reflexivity|].
  split; [reflexivity|]. intros schedule. now apply turns_idle.
Qed.

Lemma downloadFolderCommand_passes_a_listing_failure_on_witness :
  listing_of unlisted_env (S3FolderNode.s3 folder_2024) (listing_request folder_2024)
    = Rejected (ServiceError "AccessDenied")
  /\ promise (step unlisted_env (call unlisted_env empty_world (downloadFolderCommand folder_2024)) 0) 0
     = Some (Rejected (ServiceError "AccessDenied"))
  /\ world (step unlisted_env (call unlisted_env empty_world (downloadFolderCommand folder_2024)) 0)
     = empty_world.
Proof.
  split; [reflexivity|].
  destruct (downloadFolderCommand_passes_a_listing_failure_on unlisted_env empty_world
              folder_2024 (ServiceError "AccessDenied") eq_refl) as (Hroot & Hworld & _).
  split; [exact Hroot|exact Hworld].
Defined.

(** The turn in which the listing arrives, seen from [downloadAll]: it has
    been called as task 1 on a fresh manager, the caller's promise being
    fulfilled already. *)
Lemma downloadFolderCommand_hands_over (env : Env) (w : World) (folder : S3FolderNode.t)
    (listing : ListFilesResponse) :
  listing_of env (S3FolderNode.s3 folder) (listing_request folder) = Fulfilled listing ->
  step env (call env w (downloadFolderCommand folder)) 0
  = run env 1 (downloadAll (length (managers w)))
      {| world := with_managers w
           (managers w ++
              [S3DownloadFilesManager.new (S3FolderNode.s3 folder) (listed_files folder listing)
                 (Some (Folder.name (S3FolderNode.folder folder)))]);
         suspended := [];
         promises := {[ 0 := Fulfilled tt ]};
         next_task := 2 |}.
Proof.
  intros Hlisting. unfold call, step. cbn. unfold listing_request in Hlisting.
  rewrite Hlisting. reflexivity.
Qed.

Lemma new_manager_lookup (w : World) (m : S3DownloadFilesManager.t) :
  managers (with_managers w (managers w ++ [m])) !!! length (managers w) = m.
Proof.
  cbn. rewrite lookup_total_app_r by lia. now rewrite Nat.sub_diag.
Qed.

(** X14. [downloadFolderCommand] downloads what the listing holds: the
    manager it creates has the node's client, the folder's name and the
    files of the listing, each with the folder's bucket, in the listing's
    order and with nothing recorded as failed; and when the folder dialog has
    been answered and [downloadAll] has not failed, exactly these files are
    in flight, in that order, each through the node's client. *)
Theorem downloadFolderCommand_downloads_the_listing :
  forall (env : Env) (w : World) (folder : S3FolderNode.t) (listing : ListFilesResponse),
    listing_of env (S3FolderNode.s3 folder) (listing_request folder) = Fulfilled listing ->
    let this := length (managers w) in
    let c1 := step env (call env w (downloadFolderCommand folder)) 0 in
    let c2 := step env c1 0 in
    manager c1 this
      = S3DownloadFilesManager.new (S3FolderNode.s3 folder) (listed_files folder listing)
          (Some (Folder.name (S3FolderNode.folder folder)))
    /\ (promise c2 1 = Some (Fulfilled tt) ->
        fst <$> in_flight c2 = listed_files folder listing
        /\ Forall (fun d => client d.2 = Some (S3FolderNode.s3 folder)) (in_flight c2)).
Proof.
  intros env w folder listing Hlisting this c1 c2.
  set (m := S3DownloadFilesManager.new (S3FolderNode.s3 folder) (listed_files folder listing)
              (Some (Folder.name (S3FolderNode.folder folder)))).
  set (w' := with_managers w (managers w ++ [m])).
  assert (Hm : managers w' !!! this = m) by apply new_manager_lookup.
  assert (Hc1 : c1 = run env 1 (downloadAll this)
                       {| world := w'; suspended := []; promises := {[ 0 := Fulfilled tt ]};
                          next_task := 2 |})
    by (apply downloadFolderCommand_hands_over; exact Hlisting).
  split.
  - rewrite Hc1. destruct (run_downloadAll env 1 this
                             {| world := w'; suspended := [];
                                promises := {[ 0 := Fulfilled tt ]}; next_task := 2 |})
      as [k ->]. exact Hm.
  - subst c2. rewrite Hc1, downloadAll_after_dialog. unfold promise.
    assert (Hbatch : forall w'' savePath,
              managers w'' = managers w' ->
              let b := batch env 1 this w'' {[ 0 := Fulfilled tt ]} 2 savePath in
              fst <$> in_flight b = listed_files folder listing
              /\ Forall (fun d => client d.2 = Some (S3FolderNode.s3 folder)) (in_flight b)).
    { intros w'' savePath Hsame b.
      assert (Hflight : in_flight b
                = (fun file => (file, folder_download_options (S3FolderNode.s3 folder)
                                        (join env savePath (name file))))
                  <$> listed_files folder listing).
      { subst b. erewrite in_flight_parked by reflexivity.
        rewrite launched_files, Hsame, Hm. reflexivity. }
      rewrite Hflight. split; [apply fmap_fst_pair|].
      apply Forall_fmap, Forall_forall. now intros file _. }
    destruct (chosen_folder env w') as [saveLocation|];
      [|cbn; rewrite lookup_insert_eq; discriminate].
    destruct (missing_subdirectory env w' this saveLocation) as [dir|].
    + destruct (mkdir_fault env dir); [cbn; rewrite lookup_insert_eq; discriminate|].
      intros _. now apply Hbatch.
    + intros _. now apply Hbatch.
Qed.

Lemma downloadFolderCommand_downloads_the_listing_witness :
  listing_of friendly_env (S3FolderNode.s3 folder_2024) (listing_request folder_2024)
    = Fulfilled listing_2024
  /\ fst <$> in_flight (step friendly_env
                         (step friendly_env
                            (call friendly_env empty_world (downloadFolderCommand folder_2024)) 0) 0)
     = [file_A].
Proof.
  split; [reflexivity|].
  destruct (downloadFolderCommand_downloads_the_listing friendly_env empty_world folder_2024
              listing_2024 eq_refl) as [_ Hflight].
  destruct (Hflight ltac:(vm_compute; reflexivity)) as [Hfiles _].
  exact Hfiles.
Defined.

(** X15. A failure of [downloadAll] never reaches the caller of
    [downloadFolderCommand]. When the user dismisses the folder dialog, or
    the subdirectory cannot be created, the error settles the promise of
    [downloadAll], which line 225 dropped; the promise of
    [downloadFolderCommand] is fulfilled and stays fulfilled, and nothing is
    downloaded. *)
Theorem downloadFolderCommand_swallows_the_failure_of_downloadAll :
  forall (env : Env) (w : World) (folder : S3FolderNode.t) (listing : ListFilesResponse),
    listing_of env (S3FolderNode.s3 folder) (listing_request folder) = Fulfilled listing ->
    let c2 := turns env (call env w (downloadFolderCommand folder)) [0; 0] in
    (chosen_folder env w = None -> promise c2 1 = Some (Rejected (CancellationError user)))
    /\ (forall err,
          promise c2 1 = Some (Rejected err) ->
          promise c2 0 = Some (Fulfilled tt)
          /\ suspended c2 = []
          /\ (forall schedule, turns env c2 schedule = c2)).
Proof.
  intros env w folder listing Hlisting c2.
  assert (Hc2 : c2 = step env (step env (call env w (downloadFolderCommand folder)) 0) 0)
    by reflexivity.
  rewrite (downloadFolderCommand_hands_over env w folder listing Hlisting) in Hc2.
  rewrite downloadAll_after_dialog in Hc2.
  set (w' := with_managers w _) in Hc2.
  assert (Hchosen : chosen_folder env w' = chosen_folder env w) by reflexivity.
  rewrite Hchosen in Hc2. rewrite Hc2. unfold promise. split.
  - intros ->. apply lookup_insert_eq.
  - intros err.
    assert (Hthrown : forall err',
              let l := thrown 1 w' {[ 0 := Fulfilled tt ]} 2 err' in
              promises l !! 0 = Some (Fulfilled tt)
              /\ suspended l = []
              /\ (forall schedule, turns env l schedule = l)).
    { intros err' l. split; [reflexivity|]. split; [reflexivity|].
      intros schedule. now apply turns_idle. }
    destruct (chosen_folder env w) as [saveLocation|]; [|intros _; apply Hthrown].
    destruct (missing_subdirectory env w' (length (managers w)) saveLocation) as [dir|].
    + destruct (mkdir_fault env dir); [intros _; apply Hthrown|].
      cbn. rewrite lookup_insert_eq. discriminate.
    + cbn. rewrite lookup_insert_eq. discriminate.
Qed.

(** The user dismisses the folder dialog. *)
Lemma downloadFolderCommand_swallows_the_failure_of_downloadAll_witness :
  listing_of dismissing_env (S3FolderNode.s3 folder_2024) (listing_request folder_2024)
    = Fulfilled listing_2024
  /\ promise (turns dismissing_env
                (call dismissing_env empty_world (downloadFolderCommand folder_2024)) [0; 0]) 1
     = Some (Rejected (CancellationError user))
  /\ promise (turns dismissing_env
                (call dismissing_env empty_world (downloadFolderCommand folder_2024)) [0; 0]) 0
     = Some (Fulfilled tt).
Proof.
  split; [reflexivity|].
  destruct (downloadFolderCommand_swallows_the_failure_of_downloadAll dismissing_env empty_world
              folder_2024 listing_2024 eq_refl) as [Hdismissed Hswallowed].
  split; [now apply Hdismissed|].
  now apply (Hswallowed (CancellationError user)), Hdismissed.
Defined.

(** ** One file from the explorer *)

(** X16. Whatever the file is called, the save dialog offers [All Files] as
    its last filter; a file with an extension gets the filter of that
    extension (pattern [*] followed by the extension, matching the extension
    without its dot) above it, a file without one gets no other filter; the
    filter names never collide; and the name proposed is the file's name
    under the default download path. *)
Theorem save_dialog_filters_put_the_extension_first :
  forall (h : Host) (fileName : string) (w : Window) (saveLocation : string),
    let options := save_dialog_options h fileName saveLocation in
    let extension := extname h fileName in
    promptForSaveLocation h fileName w saveLocation
      = {| calls := [showSaveDialog w options];
           outcome := Some (Fulfilled (saveDialog h w options)) |}
    /\ last (SaveDialogOptions.filters options) = Some ("All Files", ["*"])
    /\ NoDup (fst <$> SaveDialogOptions.filters options)
    /\ (extension = EmptyString ->
        SaveDialogOptions.filters options = [("All Files", ["*"])])
    /\ (forall dot rest, extension = String dot rest ->
        SaveDialogOptions.filters options
        = [("*" +:+ String dot rest, [rest]); ("All Files", ["*"])])
    /\ SaveDialogOptions.defaultUri options = Uri.file (join (outside h) saveLocation fileName).
Proof.
  intros h fileName w saveLocation options extension. split; [reflexivity|].
  subst options. unfold save_dialog_options. fold extension.
  destruct extension as [|dot rest]; cbn.
  - split; [reflexivity|]. split; [repeat constructor; set_solver|].
    split; [reflexivity|]. split; [discriminate|reflexivity].
  - split; [reflexivity|]. split.
    + repeat constructor; [|set_solver]. rewrite list_elem_of_singleton. discriminate.
    + split; [discriminate|]. split; [|reflexivity]. now intros dot' rest' [= <- <-].
Qed.

(** The command once the telemetry span is taken away and the dialog has
    been answered. *)
Lemma downloadFileAsCommand_unfolded (h : Host) (world_ : World) (node : S3FileNode.t)
    (window_ : option Window) (outputChannel_ : option OutputChannel) :
  transparent h ->
  let w := default Window_vscode window_ in
  let outputChannel := default globals_outputChannel outputChannel_ in
  let options :=
    save_dialog_options h (File.name (S3FileNode.file node)) (defaultDownloadPath world_) in
  downloadFileAsCommand h world_ node window_ outputChannel_
  = match saveDialog h w options with
    | None =>
        {| calls := [showSaveDialog w options];
           outcome := Some (Rejected (CancellationError user)) |}
    | Some destination =>
        let started :=
          [showSaveDialog w options;
           setDefaultDownloadPath (Uri.fsPath destination);
           showOutputMessage
             ("Downloading " +:+ quote +:+ readablePath h node +:+ quote +:+ " to: "
                +:+ Uri_toString h destination) outputChannel;
           downloadFile_begins (file_of_node node) (file_download_options node w destination)] in
        match downloadFile (store (outside h)) (file_of_node node)
                (Some (file_download_options node w destination)) with
        | Some (Fulfilled _) =>
            {| calls := started ++
                 [showOutputMessage ("Downloaded: " +:+ Uri_toString h destination) outputChannel];
               outcome := Some (Fulfilled tt) |}
        | Some (Rejected err) => {| calls := started; outcome := Some (Rejected err) |}
        | None => {| calls := started; outcome := None |}
        end
    end.
Proof.
  intros Hspan w outputChannel options. unfold downloadFileAsCommand. rewrite Hspan.
  fold w outputChannel. unfold promptForSaveLocation. fold options.
  unfold mbind, Command_mbind, Command_bind, ask, tell, raise. cbn.
  destruct (saveDialog h w options) as [destination|]; cbn; [|reflexivity].
  destruct (downloadFile (store (outside h)) (file_of_node node) _) as [[v|err]|]; reflexivity.
Qed.

(** X17. When the user dismisses the save dialog, [downloadFileAsCommand]
    fails with [CancellationError(user)] and has done nothing but open the
    dialog: the default download path is not changed, nothing is written to
    the output channel and no download is started. *)
Theorem downloadFileAsCommand_cancelled_by_dismissing_the_dialog :
  forall (h : Host) (world_ : World) (node : S3FileNode.t) (window_ : option Window)
         (outputChannel_ : option OutputChannel),
    transparent h ->
    saveDialog h (default Window_vscode window_)
      (save_dialog_options h (File.name (S3FileNode.file node)) (defaultDownloadPath world_))
    = None ->
    downloadFileAsCommand h world_ node window_ outputChannel_
    = {| calls := [showSaveDialog (default Window_vscode window_)
                     (save_dialog_options h (File.name (S3FileNode.file node))
                        (defaultDownloadPath world_))];
         outcome := Some (Rejected (CancellationError user)) |}.
Proof.
  intros h world_ node window_ outputChannel_ Hspan Hdismissed.
  rewrite (downloadFileAsCommand_unfolded h world_ node window_ outputChannel_ Hspan).
  cbv zeta. now rewrite Hdismissed.
Qed.

Lemma transparent_friendly_host : transparent friendly_host.
Proof. intros A metric body. reflexivity. Qed.

Lemma transparent_dismissing_host : transparent dismissing_host.
Proof. intros A metric body. reflexivity. Qed.

Lemma downloadFileAsCommand_cancelled_by_dismissing_the_dialog_witness :
  outcome (downloadFileAsCommand dismissing_host fresh_world node_A None None)
    = Some (Rejected (CancellationError user))
  /\ length (calls (downloadFileAsCommand dismissing_host fresh_world node_A None None)) = 1.
Proof.
  rewrite (downloadFileAsCommand_cancelled_by_dismissing_the_dialog dismissing_host fresh_world
             node_A None None transparent_dismissing_host eq_refl).
  split; reflexivity.
Defined.

(** X18. [downloadFileAsCommand] fails in two ways only: with
    [CancellationError(user)] when the save dialog is dismissed, and with the
    error of [downloadFile] when the download fails, which names the file,
    keeps the cause and carries the bucket, the key and the path chosen in
    the dialog. In the second case the default download path has been set to
    the chosen location all the same, and no completion is announced. *)
Theorem downloadFileAsCommand_fails_by_cancellation_or_with_the_download :
  forall (h : Host) (world_ : World) (node : S3FileNode.t) (window_ : option Window)
         (outputChannel_ : option OutputChannel) (err : Error),
    transparent h ->
    outcome (downloadFileAsCommand h world_ node window_ outputChannel_) = Some (Rejected err) ->
    let w := default Window_vscode window_ in
    let options :=
      save_dialog_options h (File.name (S3FileNode.file node)) (defaultDownloadPath world_) in
    (saveDialog h w options = None /\ err = CancellationError user)
    \/ exists destination cause,
         saveDialog h w options = Some destination
         /\ downloadS3File (store (outside h)) (S3FileNode.s3 node) (file_of_node node)
              (Some (file_download_options node w destination)) = Some (Rejected cause)
         /\ err = ToolkitError ("Failed to download file " +:+ File.name (S3FileNode.file node))
                    cause
                    {| ErrorDetails.bucket := S3FileNode.bucket node;
                       ErrorDetails.path := File.key (S3FileNode.file node);
                       ErrorDetails.destination := Some (Uri.path destination) |}
         /\ setDefaultDownloadPath (Uri.fsPath destination)
              ∈ calls (downloadFileAsCommand h world_ node window_ outputChannel_)
         /\ Forall (fun c => announces_completion c = false)
              (calls (downloadFileAsCommand h world_ node window_ outputChannel_)).
Proof.
  intros h world_ node window_ outputChannel_ err Hspan.
  rewrite (downloadFileAsCommand_unfolded h world_ node window_ outputChannel_ Hspan).
  cbv zeta.
  destruct (saveDialog h _ _) as [destination|]; [|intros [= <-]; now left].
  destruct (downloadFile (store (outside h)) (file_of_node node) _) as [[v|err']|] eqn:Hdownload;
    cbn; try discriminate.
  intros [= ->]. right. exists destination.
  unfold downloadFile in Hdownload. cbn in Hdownload.
  destruct (downloadS3File _ _ _ _) as [[v|cause]|]; cbn in Hdownload; try discriminate.
  injection Hdownload as <-. exists cause. split; [reflexivity|]. split; [reflexivity|].
  split; [reflexivity|]. split; [set_solver|].
  repeat constructor.
Qed.

(** The object [2024/b.txt] cannot be read. *)
Lemma downloadFileAsCommand_fails_by_cancellation_or_with_the_download_witness :
  outcome (downloadFileAsCommand friendly_host fresh_world node_B None None)
    = Some (Rejected (ToolkitError "Failed to download file b.txt" (ServiceError "NoSuchKey")
        {| ErrorDetails.bucket := reports_bucket;
           ErrorDetails.path := "2024/b.txt";
           ErrorDetails.destination := Some "/home/user/b.txt" |}))
  /\ setDefaultDownloadPath "/home/user/b.txt"
       ∈ calls (downloadFileAsCommand friendly_host fresh_world node_B None None).
Proof.
  assert (Hfails : outcome (downloadFileAsCommand friendly_host fresh_world node_B None None)
                   = Some (Rejected (ToolkitError "Failed to download file b.txt"
                       (ServiceError "NoSuchKey")
                       {| ErrorDetails.bucket := reports_bucket;
                          ErrorDetails.path := "2024/b.txt";
                          ErrorDetails.destination := Some "/home/user/b.txt" |})))
    by reflexivity.
  split; [exact Hfails|].
  destruct (downloadFileAsCommand_fails_by_cancellation_or_with_the_download friendly_host
              fresh_world node_B None None _ transparent_friendly_host Hfails)
    as [[Hnone _]|(destination & cause & Hchosen & _ & _ & Hpath & _)]; [discriminate|].
  injection Hchosen as <-. exact Hpath.
Defined.

(** X19. Once a location is chosen, [downloadFileAsCommand] sets the default
    download path to it, announces the download on the output channel and
    only then starts it, into that location, with a progress notification,
    through the node's client; and the completion of the download is
    announced exactly when the command is fulfilled, as its last call. *)
Theorem downloadFileAsCommand_announces_completion_exactly_on_success :
  forall (h : Host) (world_ : World) (node : S3FileNode.t) (window_ : option Window)
         (outputChannel_ : option OutputChannel) (destination : Uri.t),
    transparent h ->
    let w := default Window_vscode window_ in
    let outputChannel := default globals_outputChannel outputChannel_ in
    let options :=
      save_dialog_options h (File.name (S3FileNode.file node)) (defaultDownloadPath world_) in
    let command := downloadFileAsCommand h world_ node window_ outputChannel_ in
    saveDialog h w options = Some destination ->
    take 4 (calls command)
      = [showSaveDialog w options;
         setDefaultDownloadPath (Uri.fsPath destination);
         showOutputMessage
           ("Downloading " +:+ quote +:+ readablePath h node +:+ quote +:+ " to: "
              +:+ Uri_toString h destination) outputChannel;
         downloadFile_begins (file_of_node node)
           {| progressLocation := Some Notification;
              saveLocation := Some destination;
              window := Some w;
              timeout := None;
              client := Some (S3FileNode.s3 node) |}]
    /\ (outcome command = Some (Fulfilled tt)
        <-> exists c, c ∈ calls command /\ announces_completion c = true)
    /\ (outcome command = Some (Fulfilled tt) ->
        last (calls command)
        = Some (showOutputMessage ("Downloaded: " +:+ Uri_toString h destination) outputChannel)).
Proof.
  intros h world_ node window_ outputChannel_ destination Hspan w outputChannel options command
    Hchosen.
  subst command.
  rewrite (downloadFileAsCommand_unfolded h world_ node window_ outputChannel_ Hspan).
  cbv zeta. fold w outputChannel options. rewrite Hchosen.
  assert (Hquiet : forall c,
            c ∈ [showSaveDialog w options;
                 setDefaultDownloadPath (Uri.fsPath destination);
                 showOutputMessage
                   ("Downloading " +:+ quote +:+ readablePath h node +:+ quote +:+ " to: "
                      +:+ Uri_toString h destination) outputChannel;
                 downloadFile_begins (file_of_node node)
                   (file_download_options node w destination)] ->
            announces_completion c = false).
  { intros c Hc. rewrite !elem_of_cons in Hc.
    destruct Hc as [->|[->|[->|[->|Hc]]]]; try reflexivity. now apply elem_of_nil in Hc. }
  destruct (downloadFile (store (outside h)) (file_of_node node) _) as [[v|err]|]; cbn.
  - split; [reflexivity|]. split; [|reflexivity]. split; [|reflexivity].
    intros _.
    exists (showOutputMessage ("Downloaded: " +:+ Uri_toString h destination) outputChannel).
    split; [rewrite !elem_of_cons; do 4 right; now left|].
    cbn. now destruct (Uri_toString h destination).
  - split; [reflexivity|]. split; [|discriminate]. split; [discriminate|].
    intros (c & Hc & Hannounced). rewrite (Hquiet c Hc) in Hannounced. discriminate.
  - split; [reflexivity|]. split; [|discriminate]. split; [discriminate|].
    intros (c & Hc & Hannounced). rewrite (Hquiet c Hc) in Hannounced. discriminate.
Qed.

Lemma downloadFileAsCommand_announces_completion_exactly_on_success_witness :
  saveDialog friendly_host Window_vscode
    (save_dialog_options friendly_host "a.txt" "/home/user") = Some (Uri.file "/home/user/a.txt")
  /\ outcome (downloadFileAsCommand friendly_host fresh_world node_A None None)
     = Some (Fulfilled tt)
  /\ last (calls (downloadFileAsCommand friendly_host fresh_world node_A None None))
     = Some (showOutputMessage "Downloaded: file:///home/user/a.txt" globals_outputChannel).
Proof.
  split; [reflexivity|]. split; [reflexivity|].
  destruct (downloadFileAsCommand_announces_completion_exactly_on_success friendly_host
              fresh_world node_A None None (Uri.file "/home/user/a.txt")
              transparent_friendly_host eq_refl) as (_ & _ & Hlast).
  now apply Hlast.
Defined.


(** ** The activation of the environment support *)

Lemma split_nonempty (sep : Ascii.ascii) (s : string) : split sep s <> [].
Proof.
  destruct s as [|c rest]; cbn -[Ascii.eqb]; [discriminate|].
  destruct (Ascii.eqb c sep); [discriminate|]. now destruct (split sep rest).
Qed.

Lemma split_append (sep : Ascii.ascii) (a b : string) :
  split sep (a +:+ String sep b) = split sep a ++ split sep b.
Proof.
  induction a as [|c a IH].
  - change (EmptyString +:+ String sep b) with (String sep b). cbn -[Ascii.eqb].
    now rewrite Ascii.eqb_refl.
  - change (String c a +:+ String sep b) with (String c (a +:+ String sep b)).
    cbn -[Ascii.eqb String.append].
    destruct (Ascii.eqb c sep); [now rewrite IH|].
    rewrite IH. pose proof (split_nonempty sep a) as Hne.
    now destruct (split sep a).
Qed.

Lemma split_free (sep : Ascii.ascii) (s : string) :
  contains sep s = false -> split sep s = [s].
Proof.
  induction s as [|c s IH]; cbn -[Ascii.eqb]; [reflexivity|].
  intros Hfree. apply orb_false_iff in Hfree as [Hc Hs].
  now rewrite Hc, (IH Hs).
Qed.

Lemma last_segment (sep : Ascii.ascii) (before id : string) :
  contains sep id = false ->
  last (split sep (before +:+ String sep id)) = Some id.
Proof.
  intros Hfree. rewrite split_append, (split_free sep id Hfree). apply last_snoc.
Qed.

(** X21. Inside an environment (an ARN is given) [handleRestart] forgets
    that environment: the part of the ARN after its last [/] is removed from
    the pending restarts kept in the memento, every other pending restart and
    every other key of the memento stay as they are, nothing is resumed and
    nothing is logged, and doing it again changes nothing more. *)
Theorem handleRestart_forgets_the_environment_it_runs_in :
  forall (MDE_RESTART_KEY : string) (describe : Error -> string)
         (resumed : ExtContext -> option (Outcome unit))
         (ctx : ExtContext) (before id : string),
    contains slash id = false ->
    let arn_ := before +:+ "/" +:+ id in
    let after := (handleRestart MDE_RESTART_KEY describe resumed ctx (Some arn_)).1 in
    Memento_get (globalState after) MDE_RESTART_KEY !! id = None
    /\ (forall other, other <> id ->
          Memento_get (globalState after) MDE_RESTART_KEY !! other
          = Memento_get (globalState ctx) MDE_RESTART_KEY !! other)
    /\ (forall key_, key_ <> MDE_RESTART_KEY ->
          globalState after !! key_ = globalState ctx !! key_)
    /\ (handleRestart MDE_RESTART_KEY describe resumed ctx (Some arn_)).2 = []
    /\ handleRestart MDE_RESTART_KEY describe resumed after (Some arn_) = (after, []).
Proof.
  intros MDE_RESTART_KEY describe resumed ctx before id Hfree arn_ after.
  assert (Hid : default "" (last (split slash arn_)) = id).
  { subst arn_. change ("/" +:+ id) with (String slash id).
    now rewrite (last_segment slash before id Hfree). }
  subst after. unfold handleRestart. cbn [fst snd globalState]. rewrite Hid.
  unfold Memento_get, Memento_update.
  split; [|split; [|split; [|split]]].
  - rewrite lookup_insert_eq. cbn. apply lookup_delete_eq.
  - intros other Hother. rewrite lookup_insert_eq. cbn. now apply lookup_delete_ne.
  - intros key_ Hkey. now apply lookup_insert_ne.
  - reflexivity.
  - f_equal. f_equal. rewrite lookup_insert_eq. cbn.
    rewrite insert_insert_eq. f_equal. apply delete_id, lookup_delete_eq.
Qed.

Lemma handleRestart_forgets_the_environment_it_runs_in_witness :
  contains slash "env-1" = false
  /\ Memento_get
       (globalState
          (handleRestart "mde.restart" (fun _ => "error") (fun _ => None) restarting_ctx
             (Some "arn:aws:mde:us-west-2:123456789012:/environment/env-1")).1)
       "mde.restart" !! "env-1" = None
  /\ Memento_get
       (globalState
          (handleRestart "mde.restart" (fun _ => "error") (fun _ => None) restarting_ctx
             (Some "arn:aws:mde:us-west-2:123456789012:/environment/env-1")).1)
       "mde.restart" !! "env-2" = Some true.
Proof.
  split; [reflexivity|].
  destruct (handleRestart_forgets_the_environment_it_runs_in "mde.restart" (fun _ => "error")
              (fun _ => None) restarting_ctx "arn:aws:mde:us-west-2:123456789012:/environment"
              "env-1" eq_refl) as (Hgone & Hothers & _).
  split; [exact Hgone|].
  etransitivity; [exact (Hothers "env-2" ltac:(discriminate))|vm_compute; reflexivity].
Defined.

(** X22. Outside an environment (no ARN) [handleRestart] leaves the memento
    alone, asks once for the environments to be resumed, and turns a failure
    of that into one logged error; with an ARN, be it the empty string, it
    never asks for a resumption. *)
Theorem handleRestart_resumes_only_outside_an_environment :
  forall (MDE_RESTART_KEY : string) (describe : Error -> string)
         (resumed : ExtContext -> option (Outcome unit))
         (ctx : ExtContext) (arn_ : option string),
    let result := handleRestart MDE_RESTART_KEY describe resumed ctx arn_ in
    (resumeEnvironments ctx ∈ result.2 <-> arn_ = None)
    /\ (arn_ = None -> result.1 = ctx)
    /\ (arn_ = None ->
        filter (fun c => is_logger_error c = true) result.2
        = match resumed ctx with
          | Some (Rejected err) =>
              [logger_error ("Error while resuming environments: " +:+ describe err) []]
          | _ => []
          end).
Proof.
  intros MDE_RESTART_KEY describe resumed ctx [arn_|] result; subst result; cbn.
  - split; [|split; discriminate]. split; [|discriminate]. intros Hin. now apply elem_of_nil in Hin.
  - split; [|split; [reflexivity|]].
    + split; [reflexivity|]. intros _. unfold Command_catch, ask. cbn.
      destruct (resumed ctx) as [[[]|err]|]; cbn; apply list_elem_of_here.
    + intros _. unfold Command_catch, ask. cbn.
      destruct (resumed ctx) as [[[]|err]|]; reflexivity.
Qed.

(** X23. The handler of [aws.mde.create] never fails: whatever the webview
    and the refresh of the explorer do, its promise is not rejected. The
    explorer is refreshed exactly when the webview produced an environment;
    at most one error is logged; and when the promises it awaits settle, the
    handler is fulfilled. *)
Theorem aws_mde_create_never_rejects :
  forall (webview : option (Outcome (option MdeEnvironment.t)))
         (refresh : option (Outcome unit)) (ctx : ExtContext)
         (treenode : option MdeRootNode.t),
    let command := aws_mde_create webview refresh ctx treenode in
    (forall err, outcome command <> Some (Rejected err))
    /\ (executeCommand "aws.refreshAwsExplorerNode" treenode ∈ calls command
        <-> exists env, webview = Some (Fulfilled (Some env)))
    /\ length (filter (fun c => is_logger_error c = true) (calls command)) <= 1
    /\ (is_Some webview -> is_Some refresh -> outcome command = Some (Fulfilled tt)).
Proof.
  intros webview refresh ctx treenode command. subst command.
  unfold aws_mde_create, mbind, Command_mbind, Command_bind, Command_catch, ask, tell. cbn.
  destruct webview as [[[env|]|err]|]; cbn.
  - destruct refresh as [[[]|err]|]; cbn.
    all: split; [discriminate|]; split;
      [split; [eauto|intros _; rewrite !elem_of_cons; auto]|].
    all: split; [vm_compute; lia|].
    + reflexivity.
    + reflexivity.
    + intros _ [x Hx]. discriminate.
  - split; [discriminate|]. split.
    + split; [|intros [env [=]]]. rewrite !elem_of_cons. intros [H|[H|[H|H]]]; try discriminate.
      now apply elem_of_nil in H.
    + split; [vm_compute; lia|reflexivity].
  - split; [discriminate|]. split.
    + split; [|intros [env [=]]]. rewrite !elem_of_cons. intros [H|[H|[H|H]]]; try discriminate.
      now apply elem_of_nil in H.
    + split; [vm_compute; lia|reflexivity].
  - split; [discriminate|]. split.
    + split; [|intros [env [=]]]. rewrite !elem_of_cons. intros [H|[H|H]]; try discriminate.
      now apply elem_of_nil in H.
    + split; [vm_compute; lia|]. intros [x Hx]. discriminate.
Qed.
